(** * scriptworker.worker: the task-lifecycle orchestrator

    A shallow embedding of [src/scriptworker/worker.py]: the coroutines
    [do_run_task], [do_upload], the class [RunTasks] (the cancellation
    token), [run_tasks] and the SIGTERM handler of [main].

    The Python code is asynchronous and raises exceptions.  It is embedded
    in a small monad of our own: a computation takes the process state and
    gives an outcome (a value or a raised exception), the state it leaves and
    the list of the calls it made on its collaborators, in the order they
    were made.  An [await] on a collaborator is a suspension point: the
    SIGTERM handler may run there, any number of times. *)

From Stdlib Require Import ZArith List String Bool Lia Arith.
Import ListNotations.
Local Open Scope Z_scope.

Module Worker.

(** ** Exceptions *)

(** The exception classes the module distinguishes.  [CoTError] is a
    subclass of [ScriptWorkerException]; [ClientError] is
    [aiohttp.ClientError]; [Unexpected] stands for every other class. *)
Inductive exn : Type :=
| CancelledError
| ScriptWorkerException (msg : string) (exit_code : Z)
| CoTError (msg : string) (exit_code : Z)
| ClientError (msg : string)
| Unexpected (msg : string).

(** [except ScriptWorkerException as e]: the clause matches the class and
    its subclass, and reads [e.exit_code]. *)
Definition as_ScriptWorkerException (e : exn) : option Z :=
  match e with
  | ScriptWorkerException _ c => Some c
  | CoTError _ c => Some c
  | _ => None
  end.

Definition is_CancelledError (e : exn) : bool :=
  match e with CancelledError => true | _ => false end.

Definition is_ClientError (e : exn) : bool :=
  match e with ClientError _ => true | _ => false end.

Inductive outcome (A : Type) : Type :=
| Returned (a : A)
| Raised (e : exn).
Arguments Returned {A} a.
Arguments Raised {A} e.

(** ** Data *)

(** A task definition, as found in the list under the key ['tasks'] of a
    claim response. *)
Definition task_defn := nat.

(** The value [claim_work] gives: [None], or a dict whose key ['tasks'] is
    absent ([Some None]) or holds a list. *)
Definition claim_response := option (option (list task_defn)).

(** [tasks.get('tasks', [])] *)
Definition get_tasks (d : option (list task_defn)) : list task_defn :=
  match d with Some l => l | None => [] end.

(** [not tasks or not tasks.get('tasks', [])] *)
Definition no_work (tasks : claim_response) : bool :=
  match tasks with
  | None => true
  | Some d => match get_tasks d with [] => true | _ :: _ => false end
  end.

(** The coroutines handed to [_run_cancellable]. *)
Inductive cancellable : Type :=
| claim_work
| asyncio_sleep (delay : Z)
| verify_chain_of_trust (chain : task_defn).

(** A [TaskProcess], named by the process it wraps. *)
Definition TaskProcess := nat.

(** The fields of a [RunTasks] object, as [__init__] declares them. *)
Record RunTasks : Type := mkRunTasks {
  future : option cancellable;
  task_process : option TaskProcess;
  is_cancelled : bool
}.

(** [RunTasks.__init__] *)
Definition RunTasks_init : RunTasks := mkRunTasks None None false.

Record Config : Type := mkConfig {
  verify_chain_of_trust_enabled : bool;   (* config['verify_chain_of_trust'] *)
  poll_interval : Z                       (* config['poll_interval'] *)
}.

(** A reference to a [RunTasks] object. *)
Definition reference := nat.

Record Context : Type := mkContext {
  config : Config;
  task : option task_defn;            (* context.task *)
  running_tasks : option reference    (* context.running_tasks *)
}.

(** The process state: the context, the [RunTasks] object [self] of the
    current iteration with the reference that names it, the flag [done] of
    [main], and the next free reference. *)
Record state : Type := mkState {
  context : Context;
  self_ref : reference;
  self : RunTasks;
  done : bool;
  next_ref : reference
}.

Definition set_self (o : RunTasks) (s : state) : state :=
  mkState (context s) (self_ref s) o (done s) (next_ref s).

Definition set_future (f : option cancellable) (s : state) : state :=
  set_self (mkRunTasks f (task_process (self s)) (is_cancelled (self s))) s.

Definition set_task_process (p : option TaskProcess) (s : state) : state :=
  set_self (mkRunTasks (future (self s)) p (is_cancelled (self s))) s.

Definition set_is_cancelled (b : bool) (s : state) : state :=
  set_self (mkRunTasks (future (self s)) (task_process (self s)) b) s.

Definition set_done (b : bool) (s : state) : state :=
  mkState (context s) (self_ref s) (self s) b (next_ref s).

Definition set_context (c : Context) (s : state) : state :=
  mkState c (self_ref s) (self s) (done s) (next_ref s).

Definition set_task (t : option task_defn) (s : state) : state :=
  set_context (mkContext (config (context s)) t (running_tasks (context s))) s.

Definition set_running_tasks (r : option reference) (s : state) : state :=
  set_context (mkContext (config (context s)) (task (context s)) r) s.

(** [RunTasks()]: a new object under a fresh reference becomes [self]. *)
Definition new_RunTasks (s : state) : state :=
  mkState (context s) (next_ref s) RunTasks_init (done s) (S (next_ref s)).

(** ** Calls on the collaborators, in the order they are made *)

Inductive event : Type :=
| Scheduled (c : cancellable)            (* asyncio.ensure_future(coroutine) *)
| FutureCancel (c : cancellable)         (* self.future.cancel() *)
| WorkerShutdownStop (p : TaskProcess)   (* task_process.worker_shutdown_stop() *)
| PrepareToRunTask (t : task_defn)
| ReclaimStarted (i : nat)               (* create_task(reclaim_task(...)) *)
| ReclaimCancelled (i : nat)             (* reclaim_fut.cancel() *)
| RunTask (t : task_defn)
| GenerateCot (t : task_defn)
| UploadArtifacts (t : task_defn)
| CompleteTask (t : task_defn) (status : Z)
| Cleanup.

(** ** The monad *)

Record run (A : Type) : Type := Run {
  value : outcome A;
  final : state;
  events : list event
}.
Arguments Run {A} value final events.
Arguments value {A} r.
Arguments final {A} r.
Arguments events {A} r.

Definition M (A : Type) : Type := state -> run A.

Definition ret {A} (a : A) : M A := fun s => Run (Returned a) s [].

Definition raise {A} (e : exn) : M A := fun s => Run (Raised e) s [].

Definition bind {A B} (m : M A) (k : A -> M B) : M B := fun s =>
  match m s with
  | Run (Returned a) s1 evs =>
      match k a s1 with
      | Run v s2 evs' => Run v s2 (evs ++ evs')
      end
  | Run (Raised e) s1 evs => Run (Raised e) s1 evs
  end.

Definition emit (e : event) : M unit := fun s => Run (Returned tt) s [e].

Definition get {A} (f : state -> A) : M A := fun s => Run (Returned (f s)) s [].

Definition modify (f : state -> state) : M unit := fun s => Run (Returned tt) (f s) [].

Definition lift {A} (o : outcome A) : M A := fun s => Run o s [].

Declare Scope worker_scope.
Delimit Scope worker_scope with worker.
Notation "x <- m ;; k" := (bind m (fun x => k))
  (at level 100, m at next level, right associativity) : worker_scope.
Notation "m ;;; k" := (bind m (fun _ => k))
  (at level 100, right associativity) : worker_scope.
Local Open Scope worker_scope.

(** [try: m  except <clause>: h]: [clause e] is the handler of the except
    clause that matches [e], if one does; an exception no clause matches
    goes on. *)
Definition try_except {A} (m : M A) (clause : exn -> option (M A)) : M A := fun s =>
  match m s with
  | Run (Returned a) s1 evs => Run (Returned a) s1 evs
  | Run (Raised e) s1 evs =>
      match clause e with
      | Some h =>
          match h s1 with
          | Run v s2 evs' => Run v s2 (evs ++ evs')
          end
      | None => Run (Raised e) s1 evs
      end
  end.

(** One statement of a [try] block whose except clauses read a local
    variable: [clause] is given with the value the variable has when the
    statement runs, [k] is the rest of the block.  When the statement raises,
    the rest of the block is left out. *)
Definition guarded {A B} (clause : exn -> option (M B)) (m : M A) (k : A -> M B)
  : M B := fun s =>
  match m s with
  | Run (Returned a) s1 evs =>
      match k a s1 with
      | Run v s2 evs' => Run v s2 (evs ++ evs')
      end
  | Run (Raised e) s1 evs =>
      match clause e with
      | Some h =>
          match h s1 with
          | Run v s2 evs' => Run v s2 (evs ++ evs')
          end
      | None => Run (Raised e) s1 evs
      end
  end.

(** ** The collaborators *)

(** What an awaited collaborator does in one execution: how many times
    SIGTERM is handled while the caller is suspended on it, its result, and
    whether, wrapped in a future that gets cancelled meanwhile, it lets the
    cancellation through. *)
Record awaitable (A : Type) : Type := mkAwaitable {
  signals : nat;
  result : outcome A;
  honours_cancel : bool
}.
Arguments mkAwaitable {A} signals result honours_cancel.
Arguments signals {A} a.
Arguments result {A} a.
Arguments honours_cancel {A} a.

(** The collaborators' behaviour for one task of the claim response. *)
Record task_world : Type := mkTaskWorld {
  w_prepare_to_run_task : outcome unit;
  w_verify_chain_of_trust : awaitable unit;
  w_create_subprocess : awaitable TaskProcess;   (* run_task, up to the adoption *)
  w_process_wait : awaitable Z;                  (* run_task, from then on *)
  w_generate_cot : outcome unit;
  w_upload_artifacts : awaitable unit;
  w_complete_task : awaitable unit;
  w_cleanup : outcome unit
}.

Record world : Type := mkWorld {
  w_claim_work : awaitable claim_response;
  w_sleep : awaitable unit;
  w_task : nat -> task_world       (* by position in the claim response *)
}.

Section Code.

(** [scriptworker.task.worst_level] and [scriptworker.constants.STATUSES]
    are imported by the module; they are parameters here. *)
Variable worst_level : Z -> Z -> Z.
Variable STATUSES : string -> Z.

(** *** [RunTasks.cancel] *)
Definition cancel : M unit :=
  modify (set_is_cancelled true);;;
  f <- get (fun s => future (self s));;
  match f with
  | Some c => emit (FutureCancel c)
  | None => ret tt
  end;;;
  p <- get (fun s => task_process (self s));;
  match p with
  | Some p => emit (WorkerShutdownStop p)
  | None => ret tt
  end.

(** *** [_handle_sigterm], of [main]

    [context.running_tasks.cancel()] reaches [self] when the context refers
    to it. *)
Definition _handle_sigterm : M unit :=
  modify (set_done true);;;
  r <- get (fun s => running_tasks (context s));;
  match r with
  | Some r =>
      me <- get self_ref;;
      if Nat.eqb r me then cancel else ret tt
  | None => ret tt
  end.

(** SIGTERM handled [n] times at one suspension point. *)
Fixpoint deliver (n : nat) : M unit :=
  match n with
  | O => ret tt
  | S n' => _handle_sigterm;;; deliver n'
  end.

(** [await] on a collaborator that is not wrapped in [self.future]. *)
Definition await {A} (a : awaitable A) : M A :=
  deliver (signals a);;; lift (result a).

(** *** [RunTasks._run_cancellable]

    [await self.future] raises [CancelledError] when the future was
    cancelled while pending, which is when [cancel] ran during the await
    (the flag was clear before it) and the coroutine let it through. *)
Definition _run_cancellable {A} (coroutine : cancellable) (a : awaitable A) : M A :=
  c <- get (fun s => is_cancelled (self s));;
  if c then raise CancelledError else
  modify (set_future (Some coroutine));;;
  emit (Scheduled coroutine);;;
  deliver (signals a);;;
  hit <- get (fun s => is_cancelled (self s));;
  r <- lift (if hit && honours_cancel a then Raised CancelledError else result a);;
  modify (set_future None);;;
  ret r.

(** *** [RunTasks.cancellable_verify_chain_of_trust] *)
Definition aborted : exn :=
  CoTError "Chain of Trust verification was aborted"%string (STATUSES "worker-shutdown"%string).

Definition cancellable_verify_chain_of_trust (chain : task_defn) (a : awaitable unit)
  : M unit :=
  let exception := aborted in
  c <- get (fun s => is_cancelled (self s));;
  if c then raise exception else
  try_except (_run_cancellable (verify_chain_of_trust chain) a)
    (fun e => if is_CancelledError e then Some (raise exception) else None).

(** *** [RunTasks.to_cancellable_process] *)
Definition to_cancellable_process (task_process : TaskProcess) : M TaskProcess :=
  modify (set_task_process (Some task_process));;;
  c <- get (fun s => is_cancelled (self s));;
  (if c then emit (WorkerShutdownStop task_process) else ret tt);;;
  ret task_process.

(** Modelled from the spec: [scriptworker.task.run_task] is not in the
    module.  The Task Executor, [run(task) -> (status, processHandle)],
    "exposes a live process handle so the orchestrator can adopt it into the
    Cancellation Token": it starts the subprocess, hands it to
    [to_cancellable_process], waits, and gives the status. *)
Definition run_task (tw : task_world) (t : task_defn) : M Z :=
  emit (RunTask t);;;
  p <- await (w_create_subprocess tw);;
  to_cancellable_process p;;;
  await (w_process_wait tw).

(** *** [do_run_task] *)
Definition except_do_run_task (status : Z) (e : exn) : option (M Z) :=
  match as_ScriptWorkerException e with
  | Some exit_code => Some (ret (worst_level status exit_code))
  | None => None                 (* except Exception: log, raise *)
  end.

Definition do_run_task (tw : task_world) (t : task_defn) : M Z :=
  let status := 0 in
  guarded (except_do_run_task status)
    (v <- get (fun s => verify_chain_of_trust_enabled (config (context s)));;
     if v then cancellable_verify_chain_of_trust t (w_verify_chain_of_trust tw)
     else ret tt) (fun _ =>
  guarded (except_do_run_task status) (run_task tw t) (fun status =>
  guarded (except_do_run_task status)
    (emit (GenerateCot t);;; lift (w_generate_cot tw)) (fun _ =>
  ret status))).

(** *** [do_upload] *)
Definition except_do_upload (status : Z) (e : exn) : option (M Z) :=
  match as_ScriptWorkerException e with
  | Some exit_code => Some (ret (worst_level status exit_code))
  | None =>
      if is_ClientError e
      then Some (ret (worst_level status (STATUSES "intermittent-task"%string)))
      else None                  (* except Exception: log, raise *)
  end.

Definition do_upload (tw : task_world) (t : task_defn) : M Z :=
  let status := 0 in
  guarded (except_do_upload status)
    (emit (UploadArtifacts t);;; await (w_upload_artifacts tw)) (fun _ =>
  ret status).

(** *** [RunTasks.invoke] *)

(** The body of the [for] loop, for the task at position [i]. *)
Definition run_one (tw : task_world) (i : nat) (task_defn : task_defn) : M Z :=
  emit (PrepareToRunTask task_defn);;;
  modify (set_task (Some task_defn));;;
  lift (w_prepare_to_run_task tw);;;
  emit (ReclaimStarted i);;;
  status <- do_run_task tw task_defn;;
  upload <- do_upload tw task_defn;;
  let status := worst_level status upload in
  emit (CompleteTask task_defn status);;;
  await (w_complete_task tw);;;
  emit (ReclaimCancelled i);;;
  emit Cleanup;;;
  lift (w_cleanup tw);;;
  ret status.

Fixpoint for_tasks (w : world) (i : nat) (tasks : list task_defn) (status : option Z)
  : M (option Z) :=
  match tasks with
  | [] => ret status
  | task_defn :: rest =>
      status <- run_one (w_task w i) i task_defn;;
      for_tasks w (S i) rest (Some status)
  end.

Definition invoke (w : world) : M (option Z) :=
  try_except
    (tasks <- _run_cancellable claim_work (w_claim_work w);;
     if no_work tasks then
       interval <- get (fun s => poll_interval (config (context s)));;
       _run_cancellable (asyncio_sleep interval) (w_sleep w);;;
       ret None
     else
       let status := None in
       match tasks with
       | Some d => for_tasks w 0 (get_tasks d) status
       | None => raise (Unexpected "AttributeError"%string)   (* not reached: None is falsy *)
       end)
    (fun e => if is_CancelledError e then Some (ret None) else None).

(** *** [run_tasks] *)
Definition run_tasks (w : world) : M (option Z) :=
  modify new_RunTasks;;;
  running_tasks <- get self_ref;;
  modify (set_running_tasks (Some running_tasks));;;
  status <- invoke w;;
  modify (set_running_tasks None);;;
  ret status.

End Code.

End Worker.

Import Worker.
Local Open Scope worker_scope.

(** * What a run is measured against *)

(** [_handle_sigterm] reaches [self] when [context.running_tasks] refers
    to it. *)
Definition reaches (s : state) : bool :=
  match running_tasks (context s) with
  | Some r => Nat.eqb r (self_ref s)
  | None => false
  end.

(** The calls one [cancel] makes on an object. *)
Definition cancel_events (o : RunTasks) : list event :=
  match future o with Some c => [FutureCancel c] | None => [] end ++
  match task_process o with Some p => [WorkerShutdownStop p] | None => [] end.

(** The state and the calls after SIGTERM was handled [n] times. *)
Definition after_signals (n : nat) (s : state) : state :=
  match n with
  | O => s
  | S _ => if reaches s then set_is_cancelled true (set_done true s) else set_done true s
  end.

Fixpoint signal_events (n : nat) (s : state) : list event :=
  match n with
  | O => []
  | S n' => (if reaches s then cancel_events (self s) else []) ++ signal_events n' s
  end.

(** The token is cancelled while the caller is suspended on [a]. *)
Definition cancelled_during {A} (a : awaitable A) (s : state) : bool :=
  match signals a with O => false | S _ => reaches s end.

(** The lease renewals started and not cancelled since, most recent first,
    [acc] being those outstanding before [evs]. *)
Fixpoint outstanding (acc : list nat) (evs : list event) : list nat :=
  match evs with
  | [] => acc
  | ReclaimStarted i :: rest => outstanding (i :: acc) rest
  | ReclaimCancelled i :: rest => outstanding (remove Nat.eq_dec i acc) rest
  | _ :: rest => outstanding acc rest
  end.

Definition is_reclaim (e : event) : bool :=
  match e with
  | ReclaimStarted _ | ReclaimCancelled _ => true
  | _ => false
  end.

(** How many times [worker_shutdown_stop] was called on [p]. *)
Fixpoint stop_requests (p : TaskProcess) (evs : list event) : nat :=
  match evs with
  | [] => O
  | WorkerShutdownStop q :: rest =>
      if Nat.eqb p q then S (stop_requests p rest) else stop_requests p rest
  | _ :: rest => stop_requests p rest
  end.

(** The statuses handed to [complete_task]. *)
Fixpoint reported (evs : list event) : list Z :=
  match evs with
  | [] => []
  | CompleteTask _ status :: rest => status :: reported rest
  | _ :: rest => reported rest
  end.



(** What no method of [RunTasks] and no stage changes: the reference held
    by the context, the identity of [self] and the configuration; and the
    flag, once set, stays set. *)
Definition frame (s s' : state) : Prop :=
  running_tasks (context s') = running_tasks (context s) /\
  self_ref s' = self_ref s /\
  config (context s') = config (context s) /\
  (is_cancelled (self s) = true -> is_cancelled (self s') = true).

(** [post P E m]: from every state, [m] keeps the frame, makes only calls
    in [P], and raises only exceptions in [E]. *)
Definition post (P : event -> Prop) (E : exn -> Prop) {A} (m : M A) : Prop :=
  forall s,
    frame s (final (m s)) /\
    Forall P (events (m s)) /\
    (forall e, value (m s) = Raised e -> E e).

Definition not_cancelled (e : exn) : Prop := e <> CancelledError.
Definition any_exn (e : exn) : Prop := True.
Definition any_event (e : event) : Prop := True.
Definition no_reclaim (e : event) : Prop := is_reclaim e = false.

(** The calls the token itself makes. *)
Definition token_event (e : event) : Prop :=
  match e with
  | Scheduled _ | FutureCancel _ | WorkerShutdownStop _ => True
  | _ => False
  end.

(** The calls that execute a task. *)
Definition is_execution (e : event) : bool :=
  match e with
  | RunTask _ | GenerateCot _ => true
  | _ => false
  end.

Definition no_execution (e : event) : Prop := is_execution e = false.

Definition no_report (e : event) : Prop :=
  match e with
  | CompleteTask _ _ => False
  | _ => True
  end.

(** The first statement of the [try] block of [do_run_task]. *)
Definition verify_step (STATUSES : string -> Z) (tw : task_world) (t : task_defn)
  : M unit :=
  v <- get (fun s => verify_chain_of_trust_enabled (config (context s)));;
  if v then cancellable_verify_chain_of_trust STATUSES t (w_verify_chain_of_trust tw)
  else ret tt.

(** The states an iteration goes through: after the claim, and when the
    stages of the first task start. *)
Definition after_claim (w : world) (s : state) : state :=
  final (_run_cancellable claim_work (w_claim_work w) s).

Definition at_execute (w : world) (t : task_defn) (s : state) : state :=
  set_task (Some t) (after_claim w s).

(** [except CancelledError: return None], on the outcome of the [try]
    block of [invoke]. *)
Definition absorbed (o : outcome (option Z)) : outcome (option Z) :=
  match o with
  | Raised CancelledError => Returned None
  | _ => o
  end.


(** The status an except clause of [do_run_task] leaves, or the exception
    it lets through. *)
Definition handled (worst_level : Z -> Z -> Z) (status : Z) (e : exn) : outcome Z :=
  match as_ScriptWorkerException e with
  | Some exit_code => Returned (worst_level status exit_code)
  | None => Raised e
  end.

(** ** A deployment, for the examples

    Modelled from the spec: [worst_level] is not in the module.
    "[combine(a, b)] returns the more severe of two exit statuses under a
    fixed total order", with success as the minimum; here the order of the
    integers. *)
Definition numeric_worst_level (level1 level2 : Z) : Z :=
  if level1 >? level2 then level1 else level2.

(** Modelled from the spec: [STATUSES] is not in the module.  The order
    is "success < task-failure variants < intermittent < worker-shutdown",
    with the tier "task-failure(5)". *)
Definition example_STATUSES (name : string) : Z :=
  if String.eqb name "success"%string then 0
  else if String.eqb name "intermittent-task"%string then 7
  else if String.eqb name "worker-shutdown"%string then 8
  else 5.

Definition undisturbed {A} (o : outcome A) : awaitable A := mkAwaitable O o true.

Definition interrupted {A} (n : nat) (o : outcome A) : awaitable A := mkAwaitable n o true.

(** Every collaborator succeeds; the process is 42 and exits with 0. *)
Definition task_succeeds : task_world :=
  mkTaskWorld (Returned tt) (undisturbed (Returned tt)) (undisturbed (Returned 42%nat))
    (undisturbed (Returned 0)) (Returned tt) (undisturbed (Returned tt))
    (undisturbed (Returned tt)) (Returned tt).

Definition with_verify (a : awaitable unit) (tw : task_world) : task_world :=
  mkTaskWorld (w_prepare_to_run_task tw) a (w_create_subprocess tw) (w_process_wait tw)
    (w_generate_cot tw) (w_upload_artifacts tw) (w_complete_task tw) (w_cleanup tw).

Definition with_process_wait (a : awaitable Z) (tw : task_world) : task_world :=
  mkTaskWorld (w_prepare_to_run_task tw) (w_verify_chain_of_trust tw)
    (w_create_subprocess tw) a (w_generate_cot tw) (w_upload_artifacts tw)
    (w_complete_task tw) (w_cleanup tw).

Definition with_upload (a : awaitable unit) (tw : task_world) : task_world :=
  mkTaskWorld (w_prepare_to_run_task tw) (w_verify_chain_of_trust tw)
    (w_create_subprocess tw) (w_process_wait tw) (w_generate_cot tw) a
    (w_complete_task tw) (w_cleanup tw).

(** A claim that gives the tasks [ts], whose collaborators behave as [tw]
    says. *)
Definition claims (ts : list task_defn) (tw : nat -> task_world) : world :=
  mkWorld (undisturbed (Returned (Some (Some ts)))) (undisturbed (Returned tt)) tw.

(** The process before an iteration: nothing claimed, no iteration
    registered. *)
Definition idle (verify : bool) : state :=
  mkState (mkContext (mkConfig verify 5) None None) O RunTasks_init false 1%nat.

(** A token on which the process 42 is registered, and one that also has
    the claim in flight. *)
Definition process_registered : state :=
  mkState (mkContext (mkConfig true 5) (Some 7%nat) (Some 1%nat)) 1%nat
    (mkRunTasks None (Some 42%nat) false) false 2%nat.

Definition claim_in_flight : state :=
  mkState (mkContext (mkConfig true 5) None (Some 1%nat)) 1%nat
    (mkRunTasks (Some claim_work) (Some 42%nat) false) false 2%nat.

(** One task is claimed and its script fails in a way the worker does not
    know. *)
Definition unexpected_failure : world :=
  claims [7%nat]
    (fun _ => with_process_wait (undisturbed (Raised (Unexpected "boom"%string)))
                task_succeeds).



(** SIGTERM arrives during the claim, or during the sleep that follows an
    empty claim. *)
Definition sigterm_during_claim : world :=
  mkWorld (interrupted 1 (Returned (Some (Some [7%nat]))))
          (undisturbed (Returned tt)) (fun _ => task_succeeds).


(** One task is claimed and its script raises a structured failure of
    the tier "task-failure(5)". *)
Definition script_fails : world :=
  claims [7%nat]
    (fun _ => with_process_wait
                (undisturbed (Raised (ScriptWorkerException "task failed"%string 5)))
                task_succeeds).

(** Two tasks are claimed; the script of the first fails, the second
    succeeds. *)
Definition first_fails_then_succeeds : world :=
  claims [7%nat; 8%nat]
    (fun i => match i with
              | O => with_process_wait
                       (undisturbed (Raised (ScriptWorkerException "task failed"%string 5)))
                       task_succeeds
              | S _ => task_succeeds
              end).

(** The verification of the chain of trust fails. *)
Definition verification_fails : task_world :=
  with_verify (undisturbed (Raised (CoTError "bad signature"%string 3))) task_succeeds.

(** The upload meets a transport error. *)
Definition upload_transport_error : task_world :=
  with_upload (undisturbed (Raised (ClientError "connection reset"%string))) task_succeeds.

(** An iteration under way on a fresh [RunTasks], registered in the
    context. *)
Definition registered (verify : bool) : state :=
  mkState (mkContext (mkConfig verify 5) None (Some 1%nat)) 1%nat RunTasks_init false 2%nat.

(** * What the iteration keeps *)

(** [keeps R m]: from every state, [m] ends in a state that [R] relates to
    it. *)
Definition keeps (R : state -> state -> Prop) {A} (m : M A) : Prop :=
  forall s, R s (final (m s)).

(** The numbers of SIGTERM handled at the suspension points of a task, and
    of an iteration, are all in [N]. *)
Definition calm_task (N : nat -> Prop) (tw : task_world) : Prop :=
  N (signals (w_verify_chain_of_trust tw)) /\
  N (signals (w_create_subprocess tw)) /\
  N (signals (w_process_wait tw)) /\
  N (signals (w_upload_artifacts tw)) /\
  N (signals (w_complete_task tw)).

Definition calm_world (N : nat -> Prop) (w : world) : Prop :=
  N (signals (w_claim_work w)) /\
  N (signals (w_sleep w)) /\
  forall i, calm_task N (w_task w i).

Definition any_number (n : nat) : Prop := True.
Definition no_signal (n : nat) : Prop := n = O.

(** [done] is not reset, and the token is not cancelled unless [done] is
    set. *)
Definition shutdown_order (s s' : state) : Prop :=
  (done s = true -> done s' = true) /\
  (is_cancelled (self s') = true -> is_cancelled (self s) = true \/ done s' = true).

(** A subprocess that is registered stays registered, or is replaced. *)
Definition process_kept (s s' : state) : Prop :=
  task_process (self s) <> None -> task_process (self s') <> None.

(** Nothing of the shutdown has happened. *)
Definition untouched (s s' : state) : Prop :=
  done s' = done s /\ is_cancelled (self s') = is_cancelled (self s).

(** The calls a stage makes when nothing is claimed, or before a task is
    prepared: those of the token. *)
Definition is_token_event (e : event) : bool :=
  match e with
  | Scheduled _ | FutureCancel _ | WorkerShutdownStop _ => true
  | _ => false
  end.

(** * The entry point: [async_main] and [main] *)

Module Main.

(** The calls made outside [run_tasks], and those made inside. *)
Inductive main_event : Type :=
| CleanupAtStart                 (* cleanup(context), in main *)
| SessionOpened (session : nat)  (* aiohttp.ClientSession(connector=conn) *)
| SessionClosed (session : nat)  (* the end of the async with block *)
| RmBaseGpgHome                  (* rm(context.config['base_gpg_home_dir']) *)
| RenameTmpGpgHome               (* os.rename(tmp_gpg_home, ...) *)
| RmLockfile                     (* rm_lockfile(context) *)
| InRunTasks (e : event).

(** The collaborators' behaviour for one call of [async_main]. *)
Record iteration_world : Type := mkIterationWorld {
  w_tmp_gpg_home_exists : bool;       (* os.path.exists(tmp_gpg_home) *)
  w_lockfile_state : option string;   (* is_lockfile_present(...): a state, or none *)
  w_rm : outcome unit;
  w_rename : outcome unit;
  w_rm_lockfile : outcome unit;
  w_run_tasks : world;
  w_session_close : awaitable unit
}.

Record main_world : Type := mkMainWorld {
  w_cleanup_at_start : outcome unit;
  w_iteration : nat -> iteration_world
}.

(** The state of [run_tasks], with the two fields of the context that
    [async_main] sets. *)
Record process : Type := mkProcess {
  core : state;
  session : option nat;        (* context.session *)
  credentials : option nat     (* context.credentials *)
}.

Definition set_core (s : state) (p : process) : process :=
  mkProcess s (session p) (credentials p).

Definition set_session (x : option nat) (p : process) : process :=
  mkProcess (core p) x (credentials p).

Definition set_credentials (x : option nat) (p : process) : process :=
  mkProcess (core p) (session p) x.

Record mrun (A : Type) : Type := MRun {
  mvalue : outcome A;
  mfinal : process;
  mevents : list main_event
}.
Arguments MRun {A} mvalue mfinal mevents.
Arguments mvalue {A} m.
Arguments mfinal {A} m.
Arguments mevents {A} m.

Definition MM (A : Type) : Type := process -> mrun A.

Definition mret {A} (a : A) : MM A := fun p => MRun (Returned a) p [].

Definition mbind {A B} (m : MM A) (k : A -> MM B) : MM B := fun p =>
  match m p with
  | MRun (Returned a) p1 evs =>
      match k a p1 with
      | MRun v p2 evs' => MRun v p2 (evs ++ evs')
      end
  | MRun (Raised e) p1 evs => MRun (Raised e) p1 evs
  end.

Definition memit (e : main_event) : MM unit := fun p => MRun (Returned tt) p [e].

Definition mmodify (f : process -> process) : MM unit := fun p =>
  MRun (Returned tt) (f p) [].

Definition mlift {A} (o : outcome A) : MM A := fun p => MRun o p [].

(** A coroutine of the orchestrator, run on the state it works on. *)
Definition inner {A} (m : M A) : MM A := fun p =>
  match m (core p) with
  | Run v s evs => MRun v (set_core s p) (map InRunTasks evs)
  end.

Declare Scope main_scope.
Delimit Scope main_scope with main.
Notation "x <- m ;; k" := (mbind m (fun x => k))
  (at level 100, m at next level, right associativity) : main_scope.
Notation "m ;;; k" := (mbind m (fun _ => k))
  (at level 100, right associativity) : main_scope.
Local Open Scope main_scope.

(** [try: body  finally: finalizer]: the finalizer runs whatever the body
    did; what it raises replaces what the body gave. *)
Definition try_finally {A} (body : MM A) (finalizer : MM unit) : MM A := fun p =>
  match body p with
  | MRun v p1 evs =>
      match finalizer p1 with
      | MRun (Returned _) p2 evs' => MRun v p2 (evs ++ evs')
      | MRun (Raised e) p2 evs' => MRun (Raised e) p2 (evs ++ evs')
      end
  end.

(** [async with aiohttp.ClientSession(...) as session: body]: the session
    is closed when the block is left, by its end or by an exception; the
    close is awaited. *)
Definition async_with_ClientSession {A} (session : nat) (close : awaitable unit)
    (body : MM A) : MM A :=
  memit (SessionOpened session);;;
  try_finally body (memit (SessionClosed session);;; inner (await close)).

(** [state == "ready"] *)
Definition is_ready (state : option string) : bool :=
  match state with
  | Some st => String.eqb st "ready"%string
  | None => false
  end.

(** The [if] block of [async_main]: the new gpg home replaces the old one
    when it exists and the lockfile says "ready". *)
Definition gpg_home_swap (iw : iteration_world) : MM unit :=
  let state := w_lockfile_state iw in
  if w_tmp_gpg_home_exists iw && is_ready state then
    try_finally
      (memit RmBaseGpgHome;;; mlift (w_rm iw);;;
       memit RenameTmpGpgHome;;; mlift (w_rename iw))
      (memit RmLockfile;;; mlift (w_rm_lockfile iw))
  else mret tt.

Section MainCode.

Variable worst_level : Z -> Z -> Z.
Variable STATUSES : string -> Z.

(** *** [async_main] *)
Definition async_main (iw : iteration_world) (new_session : nat) (creds : nat)
  : MM unit :=
  async_with_ClientSession new_session (w_session_close iw)
    (mmodify (set_session (Some new_session));;;
     mmodify (set_credentials (Some creds));;;
     gpg_home_swap iw;;;
     _ <- inner (run_tasks worst_level STATUSES (w_run_tasks iw));;
     mret tt).

(** How [main] ends in the model: the loop was left, or it was still going
    when the fuel ran out. *)
Inductive loop_end : Type := Stopped | StillLooping.

(** *** [main]: the loop

    [while not done: run_until_complete(async_main(context, credentials))];
    an exception is logged and raised again.  The call number [i] names the
    session the call opens. *)
Fixpoint main_loop (fuel : nat) (mw : main_world) (creds : nat) (i : nat)
  : MM loop_end := fun p =>
  if done (core p) then MRun (Returned Stopped) p []
  else
    match fuel with
    | O => MRun (Returned StillLooping) p []
    | S fuel' =>
        (async_main (w_iteration mw i) i creds;;;
         main_loop fuel' mw creds (S i)) p
    end.

(** *** [main] *)
Definition main (fuel : nat) (mw : main_world) (creds : nat) : MM loop_end :=
  memit CleanupAtStart;;;
  mlift (w_cleanup_at_start mw);;;
  mmodify (fun p => set_core (set_done false (core p)) p);;;
  main_loop fuel mw creds 0.

End MainCode.

(** No SIGTERM is handled at any suspension point of the call. *)
Definition quiet_iteration (iw : iteration_world) : Prop :=
  calm_world no_signal (w_run_tasks iw) /\ signals (w_session_close iw) = O.

(** The calls of the swap of the gpg home. *)
Definition is_swap_event (e : main_event) : bool :=
  match e with
  | RmBaseGpgHome | RenameTmpGpgHome | RmLockfile => true
  | _ => false
  end.

(** The outcome of the swap: what the removal of the lockfile raises, or
    else what the removal of the old home or the renaming gave. *)
Definition swap_outcome (iw : iteration_world) : outcome unit :=
  match w_rm_lockfile iw with
  | Raised e => Raised e
  | Returned _ =>
      match w_rm iw with
      | Raised e => Raised e
      | Returned _ => w_rename iw
      end
  end.

Definition swap_events (iw : iteration_world) : list main_event :=
  match w_rm iw with
  | Raised _ => [RmBaseGpgHome; RmLockfile]
  | Returned _ => [RmBaseGpgHome; RenameTmpGpgHome; RmLockfile]
  end.

(** Every collaborator of the entry point succeeds, one task is claimed
    and run, and SIGTERM arrives during the claim. *)
Definition swap_then_sigterm : iteration_world :=
  mkIterationWorld true (Some "ready"%string) (Returned tt) (Returned tt) (Returned tt)
    sigterm_during_claim (undisturbed (Returned tt)).

(** The removal of the old gpg home fails. *)
Definition swap_fails : iteration_world :=
  mkIterationWorld true (Some "ready"%string) (Raised (Unexpected "EACCES"%string))
    (Returned tt) (Returned tt) (claims [7%nat] (fun _ => task_succeeds))
    (undisturbed (Returned tt)).

(** Nothing to swap, nothing to claim, no SIGTERM. *)
Definition nothing_happens : iteration_world :=
  mkIterationWorld false None (Returned tt) (Returned tt) (Returned tt)
    (claims [] (fun _ => task_succeeds)) (undisturbed (Returned tt)).

Definition start (verify : bool) : process := mkProcess (idle verify) None None.

(** How a call of [async_main] ends once its block gave [v], in the state
    [s] and after the calls [evs]: the session is closed, SIGTERM being
    handled meanwhile as the world says. *)
Definition closing (iw : iteration_world) (new_session : nat) (p0 : process)
    (v : outcome unit) (s : state) (evs : list main_event) : mrun unit :=
  let n := signals (w_session_close iw) in
  MRun (match result (w_session_close iw) with
        | Returned _ => v
        | Raised e => Raised e
        end)
       (set_core (after_signals n s) p0)
       (SessionOpened new_session :: evs ++
        SessionClosed new_session :: map InRunTasks (signal_events n s)).

End Main.

(** * Closed forms of the token's operations *)

Lemma cancel_run (s : state) :
  cancel s = Run (Returned tt) (set_is_cancelled true s) (cancel_events (self s)).
Proof.
  destruct s as [ctx r [[c|] [p|] b] d n]; reflexivity.
Qed.

Lemma handle_sigterm_run (s : state) :
  _handle_sigterm s =
  Run (Returned tt) (after_signals 1 s) (signal_events 1 s).
Proof.
  destruct s as [[cfg t [r|]] me [[c|] [p|] b] d n];
    unfold _handle_sigterm, bind, after_signals, signal_events, reaches;
    cbn; try reflexivity;
    destruct (Nat.eqb r me); reflexivity.
Qed.

Lemma reaches_after_signals (n : nat) (s : state) :
  reaches (after_signals n s) = reaches s.
Proof. destruct n; cbn; [reflexivity|]. destruct (reaches s) eqn:E; exact E. Qed.

Lemma after_signals_twice (n : nat) (s : state) :
  after_signals n (after_signals 1 s) = after_signals (S n) s.
Proof.
  destruct n; [reflexivity|].
  unfold after_signals at 1. rewrite reaches_after_signals.
  cbn. destruct (reaches s); reflexivity.
Qed.

Lemma signal_events_after (n : nat) (s : state) :
  signal_events n (after_signals 1 s) = signal_events n s.
Proof.
  induction n as [|n IH]; [reflexivity|].
  cbn [signal_events]. rewrite IH, reaches_after_signals.
  f_equal. cbn. destruct (reaches s); reflexivity.
Qed.

Lemma deliver_run (n : nat) (s : state) :
  deliver n s = Run (Returned tt) (after_signals n s) (signal_events n s).
Proof.
  revert s; induction n as [|n IH]; intro s; [reflexivity|].
  cbn [deliver]. unfold bind. rewrite handle_sigterm_run.
  cbn [value final events]. rewrite IH.
  cbn [value final events].
  rewrite after_signals_twice, signal_events_after.
  cbn [signal_events]. now rewrite app_nil_r.
Qed.

Lemma await_run {A} (a : awaitable A) (s : state) :
  await a s = Run (result a) (after_signals (signals a) s) (signal_events (signals a) s).
Proof.
  unfold await, bind, lift. rewrite deliver_run. cbn.
  destruct (result a); rewrite app_nil_r; reflexivity.
Qed.

(** The flag after the signals of one suspension point. *)
Lemma is_cancelled_after_signals (n : nat) (s : state) :
  is_cancelled (self (after_signals n s)) =
  is_cancelled (self s) || (match n with O => false | S _ => reaches s end).
Proof.
  destruct n; cbn; [now rewrite orb_false_r|].
  destruct (reaches s); cbn; [now rewrite orb_true_r | now rewrite orb_false_r].
Qed.

Lemma run_cancellable_run {A} (c : cancellable) (a : awaitable A) (s : state) :
  _run_cancellable c a s =
  if is_cancelled (self s) then Run (Raised CancelledError) s []
  else
    let s1 := after_signals (signals a) (set_future (Some c) s) in
    let evs := Scheduled c :: signal_events (signals a) (set_future (Some c) s) in
    match (if cancelled_during a s && honours_cancel a
           then Raised CancelledError else result a) with
    | Returned v => Run (Returned v) (set_future None s1) evs
    | Raised e => Run (Raised e) s1 evs
    end.
Proof.
  unfold _run_cancellable, bind, get, raise. cbn [value final events].
  destruct (is_cancelled (self s)) eqn:Hc; [reflexivity|].
  unfold modify, emit, lift, ret. cbn [value final events].
  rewrite deliver_run. cbn [value final events].
  rewrite is_cancelled_after_signals. cbn [set_future set_self self is_cancelled].
  rewrite Hc. cbn [orb].
  change (match signals a with O => false | S _ => reaches (set_future (Some c) s) end)
    with (cancelled_during a s).
  cbn zeta.
  destruct (if cancelled_during a s && honours_cancel a
            then Raised CancelledError else result a);
    cbn; now rewrite ?app_nil_r.
Qed.

(** * Frame, calls and exceptions of the operations *)

Lemma frame_refl (s : state) : frame s s.
Proof. unfold frame; auto. Qed.

Lemma frame_trans (s1 s2 s3 : state) : frame s1 s2 -> frame s2 s3 -> frame s1 s3.
Proof.
  unfold frame; intros (a1 & b1 & c1 & d1) (a2 & b2 & c2 & d2).
  repeat split; try congruence; auto.
Qed.

Lemma frame_after_signals (n : nat) (s : state) : frame s (after_signals n s).
Proof.
  destruct n; [apply frame_refl|]. unfold frame, after_signals.
  destruct (reaches s); cbn; auto.
Qed.

Lemma signal_events_token (n : nat) (s : state) :
  Forall token_event (signal_events n s).
Proof.
  induction n as [|n IH]; cbn [signal_events]; [constructor|].
  apply Forall_app; split; [|exact IH].
  destruct (reaches s); [|constructor].
  unfold cancel_events.
  destruct (future (self s)), (task_process (self s)); repeat constructor.
Qed.

Lemma token_event_no_reclaim (e : event) : token_event e -> no_reclaim e.
Proof. destruct e; cbn; intros []; reflexivity. Qed.

Lemma token_event_no_execution (e : event) : token_event e -> no_execution e.
Proof. destruct e; cbn; intros []; reflexivity. Qed.

Lemma signal_events_no_reclaim (n : nat) (s : state) :
  Forall no_reclaim (signal_events n s).
Proof.
  eapply Forall_impl; [exact token_event_no_reclaim | apply signal_events_token].
Qed.

Ltac post_split := split; [|split].

Section Post.

Variable P : event -> Prop.
Hypothesis P_token : forall e, token_event e -> P e.

Lemma signal_events_P (n : nat) (s : state) : Forall P (signal_events n s).
Proof.
  eapply Forall_impl; [exact P_token | apply signal_events_token].
Qed.

Lemma post_weaken {A} (E E' : exn -> Prop) (m : M A) :
  (forall e, E e -> E' e) -> post P E m -> post P E' m.
Proof.
  intros HE H s. destruct (H s) as (Hf & Hp & He). post_split; auto.
Qed.

Lemma post_ret {A} (E : exn -> Prop) (a : A) : post P E (ret a).
Proof.
  intro s; cbn. post_split; [apply frame_refl | constructor | discriminate].
Qed.

Lemma post_raise {A} (E : exn -> Prop) (e : exn) : E e -> post P E (@raise A e).
Proof.
  intros He s; cbn. post_split; [apply frame_refl | constructor |].
  intros e' [= <-]; exact He.
Qed.

Lemma post_lift {A} (E : exn -> Prop) (o : outcome A) :
  (forall e, o = Raised e -> E e) -> post P E (lift o).
Proof.
  intros He s; cbn. post_split; [apply frame_refl | constructor | exact He].
Qed.

Lemma post_emit (E : exn -> Prop) (e : event) : P e -> post P E (emit e).
Proof.
  intros He s; cbn. post_split; [apply frame_refl | repeat constructor; exact He | discriminate].
Qed.

Lemma post_get {A} (E : exn -> Prop) (f : state -> A) : post P E (get f).
Proof.
  intro s; cbn. post_split; [apply frame_refl | constructor | discriminate].
Qed.

Lemma post_modify (E : exn -> Prop) (f : state -> state) :
  (forall s, frame s (f s)) -> post P E (modify f).
Proof.
  intros Hf s; cbn. post_split; [apply Hf | constructor | discriminate].
Qed.

Lemma post_bind {A B} (E : exn -> Prop) (m : M A) (k : A -> M B) :
  post P E m -> (forall a, post P E (k a)) -> post P E (bind m k).
Proof.
  intros Hm Hk s. unfold bind.
  specialize (Hm s). destruct (m s) as [[a|e] s1 evs]; cbn in Hm.
  - specialize (Hk a s1). destruct (k a s1) as [v s2 evs']; cbn in Hk |- *.
    destruct Hm as (Hf & Hp & _), Hk as (Hf' & Hp' & He').
    post_split; [eapply frame_trans; eauto | apply Forall_app; auto | exact He'].
  - destruct Hm as (Hf & Hp & He). cbn. post_split; auto.
    intros e' [= <-]. apply He; reflexivity.
Qed.

(** The body raises in [E0]; what a clause does not catch must be in [E],
    and so must what its handler raises. *)
Lemma post_try_except {A} (E0 E : exn -> Prop) (m : M A) (clause : exn -> option (M A)) :
  post P E0 m ->
  (forall e, E0 e -> match clause e with Some h => post P E h | None => E e end) ->
  post P E (try_except m clause).
Proof.
  intros Hm Hc s. unfold try_except.
  specialize (Hm s). destruct (m s) as [[a|e] s1 evs]; cbn in Hm.
  - destruct Hm as (Hf & Hp & _). cbn. post_split; auto. discriminate.
  - destruct Hm as (Hf & Hp & He). specialize (Hc e (He e eq_refl)).
    destruct (clause e) as [h|].
    + specialize (Hc s1). destruct (h s1) as [v s2 evs']; cbn in Hc |- *.
      destruct Hc as (Hf' & Hp' & He').
      post_split; [eapply frame_trans; eauto | apply Forall_app; auto | exact He'].
    + cbn. post_split; auto. intros e' [= <-]; exact Hc.
Qed.

Lemma post_guarded {A B} (E0 E : exn -> Prop) (clause : exn -> option (M B))
      (m : M A) (k : A -> M B) :
  post P E0 m ->
  (forall e, E0 e -> match clause e with Some h => post P E h | None => E e end) ->
  (forall a, post P E (k a)) ->
  post P E (guarded clause m k).
Proof.
  intros Hm Hc Hk s. unfold guarded.
  specialize (Hm s). destruct (m s) as [[a|e] s1 evs]; cbn in Hm.
  - specialize (Hk a s1). destruct (k a s1) as [v s2 evs']; cbn in Hk |- *.
    destruct Hm as (Hf & Hp & _), Hk as (Hf' & Hp' & He').
    post_split; [eapply frame_trans; eauto | apply Forall_app; auto | exact He'].
  - destruct Hm as (Hf & Hp & He). specialize (Hc e (He e eq_refl)).
    destruct (clause e) as [h|].
    + specialize (Hc s1). destruct (h s1) as [v s2 evs']; cbn in Hc |- *.
      destruct Hc as (Hf' & Hp' & He').
      post_split; [eapply frame_trans; eauto | apply Forall_app; auto | exact He'].
    + cbn. post_split; auto. intros e' [= <-]; exact Hc.
Qed.

Lemma post_await {A} (E : exn -> Prop) (a : awaitable A) :
  (forall e, result a = Raised e -> E e) -> post P E (await a).
Proof.
  intros He s. rewrite await_run. cbn [value final events].
  post_split; [apply frame_after_signals | apply signal_events_P | exact He].
Qed.

Lemma post_run_cancellable {A} (E : exn -> Prop) (c : cancellable) (a : awaitable A) :
  E CancelledError ->
  (forall e, result a = Raised e -> E e) ->
  post P E (_run_cancellable c a).
Proof.
  intros Hc He s. rewrite run_cancellable_run.
  destruct (is_cancelled (self s)) eqn:Hs.
  - cbn. post_split; [apply frame_refl | constructor |]. intros e [= <-]; exact Hc.
  - cbn zeta.
    assert (Hf : frame s (after_signals (signals a) (set_future (Some c) s))).
    { eapply frame_trans; [|apply frame_after_signals].
      unfold frame; cbn; auto. }
    assert (Hp : Forall P (Scheduled c :: signal_events (signals a) (set_future (Some c) s))).
    { constructor; [apply P_token; exact I | apply signal_events_P]. }
    destruct (cancelled_during a s && honours_cancel a).
    + cbn [value final events]. post_split; auto. intros e [= <-]; exact Hc.
    + destruct (result a) as [v|e] eqn:Hr; cbn [value final events].
      * post_split; [|exact Hp|discriminate].
        eapply frame_trans; [exact Hf|]. unfold frame; cbn; auto.
      * post_split; auto.
Qed.

End Post.

Section PostCode.

Variable worst_level : Z -> Z -> Z.
Variable STATUSES : string -> Z.
Variable P : event -> Prop.
Hypothesis P_token : forall e, token_event e -> P e.

Ltac post_simple :=
  first
    [ apply post_ret
    | apply post_get
    | apply post_emit; first [assumption | apply P_token; exact I]
    | apply post_modify; intro; unfold frame; cbn; auto ].

Ltac post_seq :=
  repeat first [ post_simple | apply post_bind; [|intros ?] ].

Lemma post_to_cancellable_process (E : exn -> Prop) (p : TaskProcess) :
  post P E (to_cancellable_process p).
Proof.
  unfold to_cancellable_process.
  apply post_bind; [post_simple|intros _].
  apply post_bind; [post_simple|intros c].
  apply post_bind; [destruct c; post_simple | intros _; post_simple].
Qed.

Lemma post_cancellable_verify (E : exn -> Prop) (chain : task_defn) (a : awaitable unit) :
  E (aborted STATUSES) ->
  (forall e, result a = Raised e -> e <> CancelledError -> E e) ->
  post P E (cancellable_verify_chain_of_trust STATUSES chain a).
Proof.
  intros Hab He. unfold cancellable_verify_chain_of_trust.
  apply post_bind; [post_simple|intros c].
  destruct c; [apply post_raise; exact Hab|].
  apply post_try_except
    with (E0 := fun e => e = CancelledError \/ result a = Raised e).
  - apply post_run_cancellable; auto.
  - intros e H0. destruct e; cbn [is_CancelledError];
      try (apply post_raise; exact Hab);
      destruct H0 as [H0|H0]; try discriminate; apply He; auto; discriminate.
Qed.

Lemma post_run_task (E : exn -> Prop) (tw : task_world) (t : task_defn) :
  P (RunTask t) ->
  (forall e, result (w_create_subprocess tw) = Raised e -> E e) ->
  (forall e, result (w_process_wait tw) = Raised e -> E e) ->
  post P E (run_task tw t).
Proof.
  intros HP H1 H2. unfold run_task.
  apply post_bind; [post_simple|intros _].
  apply post_bind; [apply post_await; auto; exact H1|intros p].
  apply post_bind; [apply post_to_cancellable_process|intros _].
  apply post_await; auto.
Qed.

(** What [do_run_task] lets through: an exception of a collaborator that is
    not a [ScriptWorkerException]; a [CancelledError] of the verification is
    turned into the abort. *)
Lemma post_do_run_task (E : exn -> Prop) (tw : task_world) (t : task_defn) :
  P (RunTask t) -> P (GenerateCot t) ->
  (forall e, as_ScriptWorkerException e = None ->
     (result (w_verify_chain_of_trust tw) = Raised e /\ e <> CancelledError) \/
     result (w_create_subprocess tw) = Raised e \/
     result (w_process_wait tw) = Raised e \/
     w_generate_cot tw = Raised e ->
     E e) ->
  post P E (do_run_task worst_level STATUSES tw t).
Proof.
  intros HP1 HP2 HE. unfold do_run_task.
  assert (Hclause : forall (E0 : exn -> Prop) status,
             (forall e, E0 e -> as_ScriptWorkerException e = None -> E e) ->
             forall e, E0 e ->
               match except_do_run_task worst_level status e with
               | Some h => post P E h
               | None => E e
               end).
  { intros E0 status H e He0. unfold except_do_run_task.
    destruct (as_ScriptWorkerException e) eqn:Hs; [post_simple | auto]. }
  apply post_guarded
    with (E0 := fun e => e = aborted STATUSES \/
                         (result (w_verify_chain_of_trust tw) = Raised e /\
                          e <> CancelledError)).
  - apply post_bind; [post_simple|intros v].
    destruct v; [|post_simple].
    apply post_cancellable_verify; auto.
  - apply Hclause. intros e [->|He] Hs; [discriminate Hs|]. apply HE; auto.
  - intros _.
    apply post_guarded
      with (E0 := fun e => result (w_create_subprocess tw) = Raised e \/
                           result (w_process_wait tw) = Raised e).
    + apply post_run_task; auto.
    + apply Hclause. intros e He Hs. apply HE; tauto.
    + intros status.
      apply post_guarded with (E0 := fun e => w_generate_cot tw = Raised e).
      * apply post_bind; [post_simple|intros _]. apply post_lift; auto.
      * apply Hclause. intros e He Hs. apply HE; tauto.
      * intros _; post_simple.
Qed.

Lemma post_do_upload (E : exn -> Prop) (tw : task_world) (t : task_defn) :
  P (UploadArtifacts t) ->
  (forall e, as_ScriptWorkerException e = None -> is_ClientError e = false ->
     result (w_upload_artifacts tw) = Raised e -> E e) ->
  post P E (do_upload worst_level STATUSES tw t).
Proof.
  intros HP HE. unfold do_upload.
  apply post_guarded with (E0 := fun e => result (w_upload_artifacts tw) = Raised e).
  - apply post_bind; [post_simple|intros _]. apply post_await; auto.
  - intros e He. unfold except_do_upload.
    destruct (as_ScriptWorkerException e) eqn:Hs; [post_simple|].
    destruct (is_ClientError e) eqn:Hc; [post_simple|]. auto.
  - intros _; post_simple.
Qed.

End PostCode.

(** * The loop body and the iteration, stage by stage *)

Section Stages.

Variable worst_level : Z -> Z -> Z.
Variable STATUSES : string -> Z.

Local Abbreviation do_run_task := (Worker.do_run_task worst_level STATUSES).
Local Abbreviation do_upload := (Worker.do_upload worst_level STATUSES).
Local Abbreviation run_one := (Worker.run_one worst_level STATUSES).
Local Abbreviation for_tasks := (Worker.for_tasks worst_level STATUSES).
Local Abbreviation invoke := (Worker.invoke worst_level STATUSES).

Lemma run_one_run (tw : task_world) (i : nat) (t : task_defn) (s : state) :
  run_one tw i t s =
  let s1 := set_task (Some t) s in
  match w_prepare_to_run_task tw with
  | Raised e => Run (Raised e) s1 [PrepareToRunTask t]
  | Returned _ =>
  let r1 := do_run_task tw t s1 in
  match value r1 with
  | Raised e =>
      Run (Raised e) (final r1) (PrepareToRunTask t :: ReclaimStarted i :: events r1)
  | Returned a =>
  let r2 := do_upload tw t (final r1) in
  match value r2 with
  | Raised e =>
      Run (Raised e) (final r2)
          (PrepareToRunTask t :: ReclaimStarted i :: events r1 ++ events r2)
  | Returned b =>
  let status := worst_level a b in
  let r3 := await (w_complete_task tw) (final r2) in
  match value r3 with
  | Raised e =>
      Run (Raised e) (final r3)
          (PrepareToRunTask t :: ReclaimStarted i ::
           events r1 ++ events r2 ++ CompleteTask t status :: events r3)
  | Returned _ =>
  let finishing :=
    PrepareToRunTask t :: ReclaimStarted i ::
    events r1 ++ events r2 ++ CompleteTask t status :: events r3 ++
    [ReclaimCancelled i; Cleanup] in
  match w_cleanup tw with
  | Raised e => Run (Raised e) (final r3) finishing
  | Returned _ => Run (Returned status) (final r3) finishing
  end end end end end.
Proof.
  unfold Worker.run_one, bind. cbn [emit modify lift ret value final events app].
  destruct (w_prepare_to_run_task tw) as [[]|e0]; cbn [value final events app]; [|reflexivity].
  destruct (do_run_task tw t (set_task (Some t) s)) as [[a|e1] f1 ev1];
    cbn [value final events app]; [|reflexivity].
  destruct (do_upload tw t f1) as [[b|e2] f2 ev2];
    cbn [value final events app]; [|reflexivity].
  destruct (await (w_complete_task tw) f2) as [[[]|e3] f3 ev3];
    cbn [value final events app]; [|reflexivity].
  destruct (w_cleanup tw) as [[]|e4]; cbn [value final events app]; reflexivity.
Qed.

(** [invoke] is its [try] block with [CancelledError] absorbed. *)
Lemma invoke_run (w : world) (s : state) :
  invoke w s =
  let r0 := _run_cancellable claim_work (w_claim_work w) s in
  match value r0 with
  | Raised e => Run (absorbed (Raised e)) (final r0) (events r0)
  | Returned tasks =>
      if no_work tasks then
        let interval := poll_interval (config (context (final r0))) in
        let r1 := _run_cancellable (asyncio_sleep interval) (w_sleep w) (final r0) in
        match value r1 with
        | Returned _ => Run (Returned None) (final r1) (events r0 ++ events r1)
        | Raised e => Run (absorbed (Raised e)) (final r1) (events r0 ++ events r1)
        end
      else
        match tasks with
        | Some d =>
            let r1 := for_tasks w 0 (get_tasks d) None (final r0) in
            Run (absorbed (value r1)) (final r1) (events r0 ++ events r1)
        | None => Run (Raised (Unexpected "AttributeError"%string)) (final r0) (events r0)
        end
  end.
Proof.
  unfold Worker.invoke, try_except, bind.
  destruct (_run_cancellable claim_work (w_claim_work w) s) as [[tasks|e] s0 ev0];
    cbn [value final events].
  - destruct (no_work tasks) eqn:Hn.
    + cbn [get value final events app].
      destruct (_run_cancellable _ (w_sleep w) s0) as [[[]|e] s1 ev1];
        cbn [ret value final events app is_CancelledError].
      * now rewrite app_nil_r.
      * destruct e; cbn; rewrite ?app_nil_r; reflexivity.
    + destruct tasks as [d|]; [|discriminate Hn].
      destruct (for_tasks w 0 (get_tasks d) None s0) as [[st|e] s1 ev1];
        cbn [value final events absorbed]; [reflexivity|].
      destruct e; cbn; rewrite ?app_nil_r; reflexivity.
  - destruct e; cbn; rewrite ?app_nil_r; reflexivity.
Qed.

(** The loop runs its tasks one after the other: a list that ends with
    [t] is the list before it, then [t]. *)
Lemma for_tasks_snoc (w : world) (ts : list task_defn) (t : task_defn) :
  forall (i : nat) (status : option Z) (s : state),
    for_tasks w i (ts ++ [t]) status s =
    (_ <- for_tasks w i ts status;;
     st <- run_one (w_task w (i + List.length ts)) (i + List.length ts) t;;
     ret (Some st)) s.
Proof.
  induction ts as [|t0 ts IH]; intros i status s.
  - cbn [app Worker.for_tasks List.length]. rewrite Nat.add_0_r. unfold bind.
    cbn [ret value final events app].
    destruct (run_one (w_task w i) i t s) as [[st|e] s1 ev1]; reflexivity.
  - cbn [app Worker.for_tasks List.length].
    replace (i + S (List.length ts))%nat with (S i + List.length ts)%nat by lia.
    unfold bind.
    destruct (run_one (w_task w i) i t0 s) as [[st|e] s1 ev1]; [|reflexivity].
    rewrite IH. unfold bind.
    destruct (for_tasks w (S i) ts (Some st) s1) as [[st1|e1] s2 ev2]; [|reflexivity].
    destruct (run_one _ _ t s2) as [[st2|e2] s3 ev3];
      cbn [ret]; rewrite ?app_nil_r, ?app_assoc; reflexivity.
Qed.

Lemma run_task_run (tw : task_world) (t : task_defn) (s : state) :
  run_task tw t s =
  let n1 := signals (w_create_subprocess tw) in
  match result (w_create_subprocess tw) with
  | Raised e => Run (Raised e) (after_signals n1 s) (RunTask t :: signal_events n1 s)
  | Returned p =>
      let s1 := set_task_process (Some p) (after_signals n1 s) in
      let n2 := signals (w_process_wait tw) in
      Run (result (w_process_wait tw)) (after_signals n2 s1)
          (RunTask t :: signal_events n1 s ++
           (if is_cancelled (self s1) then [WorkerShutdownStop p] else []) ++
           signal_events n2 s1)
  end.
Proof.
  unfold run_task, to_cancellable_process, bind.
  cbn [emit value final events]. rewrite await_run.
  destruct (result (w_create_subprocess tw)) as [p|e]; [|reflexivity].
  cbn [modify get value final events]. cbn zeta.
  destruct (is_cancelled (self (set_task_process (Some p) _))) eqn:Hc;
    cbn [emit ret value final events]; rewrite await_run;
    destruct (result (w_process_wait tw)); reflexivity.
Qed.

Lemma verify_step_run (tw : task_world) (t : task_defn) (s : state) :
  verify_step STATUSES tw t s =
  if verify_chain_of_trust_enabled (config (context s))
  then cancellable_verify_chain_of_trust STATUSES t (w_verify_chain_of_trust tw) s
  else Run (Returned tt) s [].
Proof.
  unfold verify_step, bind, get.
  destruct (verify_chain_of_trust_enabled (config (context s))); [|reflexivity].
  destruct (cancellable_verify_chain_of_trust STATUSES t (w_verify_chain_of_trust tw) s)
    as [[[]|e] s1 ev1]; reflexivity.
Qed.

(** [cancellable_verify_chain_of_trust] is [_run_cancellable] with
    [CancelledError] replaced by the abort. *)
Lemma cancellable_verify_run (chain : task_defn) (a : awaitable unit) (s : state) :
  cancellable_verify_chain_of_trust STATUSES chain a s =
  if is_cancelled (self s) then Run (Raised (aborted STATUSES)) s []
  else
    let r := _run_cancellable (verify_chain_of_trust chain) a s in
    match value r with
    | Raised CancelledError => Run (Raised (aborted STATUSES)) (final r) (events r)
    | v => Run v (final r) (events r)
    end.
Proof.
  unfold cancellable_verify_chain_of_trust, bind, get, try_except.
  destruct (is_cancelled (self s)); [reflexivity|].
  destruct (_run_cancellable (verify_chain_of_trust chain) a s) as [[[]|e] s1 ev1];
    [reflexivity|].
  destruct e; cbn; rewrite ?app_nil_r; reflexivity.
Qed.

Lemma do_run_task_run (tw : task_world) (t : task_defn) (s : state) :
  do_run_task tw t s =
  let r0 := verify_step STATUSES tw t s in
  match value r0 with
  | Raised e => Run (handled worst_level 0 e) (final r0) (events r0)
  | Returned _ =>
  let r1 := run_task tw t (final r0) in
  match value r1 with
  | Raised e => Run (handled worst_level 0 e) (final r1) (events r0 ++ events r1)
  | Returned status =>
  match w_generate_cot tw with
  | Raised e =>
      Run (handled worst_level status e) (final r1) (events r0 ++ events r1 ++ [GenerateCot t])
  | Returned _ =>
      Run (Returned status) (final r1) (events r0 ++ events r1 ++ [GenerateCot t])
  end end end.
Proof.
  unfold Worker.do_run_task, guarded.
  change (bind (get (fun s => verify_chain_of_trust_enabled (config (context s))))
            (fun v => if v
                      then cancellable_verify_chain_of_trust STATUSES t
                             (w_verify_chain_of_trust tw)
                      else ret tt))
    with (verify_step STATUSES tw t).
  unfold handled, except_do_run_task.
  destruct (verify_step STATUSES tw t s) as [[[]|e0] s0 ev0]; cbn [value final events].
  2:{ destruct (as_ScriptWorkerException e0); cbn; rewrite ?app_nil_r; reflexivity. }
  destruct (run_task tw t s0) as [[status|e1] s1 ev1]; cbn [value final events].
  2:{ destruct (as_ScriptWorkerException e1); cbn; rewrite ?app_nil_r; reflexivity. }
  unfold bind. cbn [emit lift value final events app].
  destruct (w_generate_cot tw) as [[]|e2]; cbn [ret value final events app].
  - rewrite ?app_nil_r; reflexivity.
  - destruct (as_ScriptWorkerException e2); cbn; rewrite ?app_nil_r; reflexivity.
Qed.

Lemma do_upload_run (tw : task_world) (t : task_defn) (s : state) :
  do_upload tw t s =
  let n := signals (w_upload_artifacts tw) in
  Run (match result (w_upload_artifacts tw) with
       | Returned _ => Returned 0
       | Raised e =>
           match as_ScriptWorkerException e with
           | Some exit_code => Returned (worst_level 0 exit_code)
           | None =>
               if is_ClientError e
               then Returned (worst_level 0 (STATUSES "intermittent-task"%string))
               else Raised e
           end
       end)
      (after_signals n s) (UploadArtifacts t :: signal_events n s).
Proof.
  unfold Worker.do_upload, guarded, bind, except_do_upload.
  cbn [emit value final events]. rewrite await_run. cbn zeta.
  destruct (result (w_upload_artifacts tw)) as [[]|e]; cbn [ret value final events app].
  - rewrite ?app_nil_r; reflexivity.
  - destruct (as_ScriptWorkerException e); cbn; rewrite ?app_nil_r; [reflexivity|].
    destruct (is_ClientError e); cbn; rewrite ?app_nil_r; reflexivity.
Qed.

Lemma run_tasks_run (w : world) (s : state) :
  Worker.run_tasks worst_level STATUSES w s =
  let s1 := set_running_tasks (Some (next_ref s)) (new_RunTasks s) in
  let r := invoke w s1 in
  match value r with
  | Returned status => Run (Returned status) (set_running_tasks None (final r)) (events r)
  | Raised e => Run (Raised e) (final r) (events r)
  end.
Proof.
  unfold Worker.run_tasks, bind. cbn [modify get value final events].
  cbn zeta.
  change (self_ref (new_RunTasks s)) with (next_ref s).
  destruct (invoke w _) as [[status|e] s2 ev2]; cbn; rewrite ?app_nil_r; reflexivity.
Qed.

(** With one task claimed, the iteration is the claim, then the loop body
    once. *)
Lemma invoke_single (w : world) (s : state) (t : task_defn) :
  value (_run_cancellable claim_work (w_claim_work w) s) = Returned (Some (Some [t])) ->
  invoke w s =
  let r0 := _run_cancellable claim_work (w_claim_work w) s in
  let r1 := run_one (w_task w 0) 0%nat t (final r0) in
  Run (absorbed (match value r1 with
                 | Returned status => Returned (Some status)
                 | Raised e => Raised e
                 end))
      (final r1) (events r0 ++ events r1).
Proof.
  intros Hc. rewrite invoke_run. cbn zeta. rewrite Hc. cbn [no_work get_tasks].
  cbn [Worker.for_tasks]. unfold bind.
  destruct (run_one (w_task w 0) 0%nat t _) as [[status|e] s1 ev1];
    cbn [ret value final events]; rewrite ?app_nil_r; reflexivity.
Qed.

End Stages.

(** * Lease renewal *)

Lemma outstanding_app (acc : list nat) (l1 l2 : list event) :
  outstanding acc (l1 ++ l2) = outstanding (outstanding acc l1) l2.
Proof.
  revert acc; induction l1 as [|e l1 IH]; intro acc; [reflexivity|].
  destruct e; cbn; apply IH.
Qed.

Lemma outstanding_no_reclaim (acc : list nat) (l : list event) :
  Forall no_reclaim l -> outstanding acc l = acc.
Proof.
  intro H; revert acc; induction H as [|e l He _ IH]; intro acc; [reflexivity|].
  destruct e; cbn; try apply IH; discriminate He.
Qed.




Section Renewal.

Variable worst_level : Z -> Z -> Z.
Variable STATUSES : string -> Z.

Local Abbreviation do_run_task := (Worker.do_run_task worst_level STATUSES).
Local Abbreviation do_upload := (Worker.do_upload worst_level STATUSES).
Local Abbreviation run_one := (Worker.run_one worst_level STATUSES).
Local Abbreviation for_tasks := (Worker.for_tasks worst_level STATUSES).
Local Abbreviation invoke := (Worker.invoke worst_level STATUSES).




End Renewal.

(** * The cancellation token *)

Lemma stop_requests_app (p : TaskProcess) (l1 l2 : list event) :
  stop_requests p (l1 ++ l2) = (stop_requests p l1 + stop_requests p l2)%nat.
Proof.
  induction l1 as [|e l1 IH]; [reflexivity|].
  destruct e; cbn; try exact IH.
  destruct (Nat.eqb p p0); cbn; rewrite IH; reflexivity.
Qed.

Lemma cancel_twice_run (s : state) :
  (cancel;;; cancel) s =
  Run (Returned tt) (set_is_cancelled true s)
      (cancel_events (self s) ++ cancel_events (self s)).
Proof.
  unfold bind. rewrite cancel_run, cancel_run. reflexivity.
Qed.

(** C3, as the code has it: [cancel] sets the flag, cancels the future in
    flight if one is registered and asks the registered subprocess to
    terminate.  A second call leaves the token as the first left it; it makes
    the same calls again, so the subprocess is asked to terminate once per
    call, twice for two calls. *)
Theorem cancel_requests_once_per_call (s : state) :
  cancel s = Run (Returned tt) (set_is_cancelled true s) (cancel_events (self s)) /\
  is_cancelled (self (final (cancel s))) = true /\
  (forall c, future (self s) = Some c -> In (FutureCancel c) (events (cancel s))) /\
  (forall p, task_process (self s) = Some p ->
     stop_requests p (events (cancel s)) = 1%nat /\
     stop_requests p (events ((cancel;;; cancel) s)) = 2%nat) /\
  final ((cancel;;; cancel) s) = final (cancel s) /\
  events ((cancel;;; cancel) s) = events (cancel s) ++ events (cancel s).
Proof.
  rewrite cancel_twice_run, cancel_run. cbn [value final events].
  assert (Hone : forall p, task_process (self s) = Some p ->
                   stop_requests p (cancel_events (self s)) = 1%nat).
  { intros p Hp. unfold cancel_events. rewrite Hp.
    destruct (future (self s)); cbn; rewrite Nat.eqb_refl; reflexivity. }
  repeat split.
  - intros c Hc. unfold cancel_events. rewrite Hc. left; reflexivity.
  - auto.
  - rewrite stop_requests_app, (Hone p H). reflexivity.
Qed.

(** C7: [_run_cancellable] raises [CancelledError] at once, scheduling
    nothing, when the flag is set.  Otherwise it schedules the coroutine and
    holds it in [self.future] while it awaits it, so that a [cancel] that
    runs meanwhile cancels that future; when the coroutine gives a result, it
    clears [self.future] and returns the result. *)
Theorem run_cancellable_contract {A : Type} (coroutine : cancellable) (a : awaitable A)
    (s : state) :
  (is_cancelled (self s) = true ->
   _run_cancellable coroutine a s = Run (Raised CancelledError) s []) /\
  (is_cancelled (self s) = false ->
   events (_run_cancellable coroutine a s) =
     Scheduled coroutine :: signal_events (signals a) (set_future (Some coroutine) s) /\
   (cancelled_during a s = true ->
    In (FutureCancel coroutine) (events (_run_cancellable coroutine a s))) /\
   (forall v, result a = Returned v ->
      cancelled_during a s && honours_cancel a = false ->
      value (_run_cancellable coroutine a s) = Returned v /\
      future (self (final (_run_cancellable coroutine a s))) = None)).
Proof.
  rewrite run_cancellable_run. split; intros Hc; rewrite Hc; [reflexivity|].
  cbn zeta.
  assert (Hev : forall (r : run A),
             r = match (if cancelled_during a s && honours_cancel a
                        then Raised CancelledError else result a) with
                 | Returned v =>
                     Run (Returned v)
                       (set_future None
                          (after_signals (signals a) (set_future (Some coroutine) s)))
                       (Scheduled coroutine ::
                        signal_events (signals a) (set_future (Some coroutine) s))
                 | Raised e =>
                     Run (Raised e)
                       (after_signals (signals a) (set_future (Some coroutine) s))
                       (Scheduled coroutine ::
                        signal_events (signals a) (set_future (Some coroutine) s))
                 end ->
             events r =
             Scheduled coroutine ::
             signal_events (signals a) (set_future (Some coroutine) s)).
  { intros r ->.
    destruct (if cancelled_during a s && honours_cancel a
              then Raised CancelledError else result a); reflexivity. }
  split; [apply Hev; reflexivity|]. split.
  - intros Hd. rewrite (Hev _ eq_refl). right.
    unfold cancelled_during in Hd.
    destruct (signals a) as [|n]; [discriminate|].
    cbn [signal_events].
    change (reaches (set_future (Some coroutine) s)) with (reaches s).
    rewrite Hd. left; reflexivity.
  - intros v Hr Hn. rewrite Hn, Hr. split; reflexivity.
Qed.

Section Verification.

Variable STATUSES : string -> Z.

(** C5: when the flag is already set, or when the token is cancelled
    while the verification is awaited and the future is cancelled with it,
    [cancellable_verify_chain_of_trust] raises the [CoTError] "Chain of Trust
    verification was aborted" with the exit code of worker-shutdown; whatever
    happens, it raises no [CancelledError]. *)
Theorem verification_abort_is_worker_shutdown (chain : task_defn) (a : awaitable unit)
    (s : state) :
  (is_cancelled (self s) = true ->
   cancellable_verify_chain_of_trust STATUSES chain a s =
   Run (Raised (aborted STATUSES)) s []) /\
  (is_cancelled (self s) = false ->
   cancelled_during a s = true -> honours_cancel a = true ->
   value (cancellable_verify_chain_of_trust STATUSES chain a s) =
   Raised (aborted STATUSES)) /\
  value (cancellable_verify_chain_of_trust STATUSES chain a s) <> Raised CancelledError /\
  aborted STATUSES =
    CoTError "Chain of Trust verification was aborted"%string
             (STATUSES "worker-shutdown"%string) /\
  as_ScriptWorkerException (aborted STATUSES) = Some (STATUSES "worker-shutdown"%string).
Proof.
  split; [|split; [|split; [|split; reflexivity]]].
  - intros Hc. rewrite cancellable_verify_run, Hc. reflexivity.
  - intros Hc Hd Hh. rewrite cancellable_verify_run, Hc. cbn zeta.
    rewrite run_cancellable_run, Hc. cbn zeta. rewrite Hd, Hh. reflexivity.
  - intros Hv.
    destruct (post_cancellable_verify STATUSES any_event (fun _ _ => I) not_cancelled
                chain a) with (s := s) as (_ & _ & He).
    + discriminate.
    + intros e _ Hne; exact Hne.
    + exact (He _ Hv eq_refl).
Qed.

End Verification.

Section Upload.

Variable worst_level : Z -> Z -> Z.
Variable STATUSES : string -> Z.

Local Abbreviation do_upload := (Worker.do_upload worst_level STATUSES).

(** C9: a transport error of the upload does not leave [do_upload]: the
    stage returns the intermittent-task status combined with its own 0.  A
    structured failure is absorbed too, with its own exit code; a successful
    upload gives 0. *)
Theorem upload_transport_error_is_intermittent (tw : task_world) (t : task_defn)
    (s : state) :
  (forall msg, result (w_upload_artifacts tw) = Raised (ClientError msg) ->
     value (do_upload tw t s) =
     Returned (worst_level 0 (STATUSES "intermittent-task"%string))) /\
  (forall e exit_code,
     result (w_upload_artifacts tw) = Raised e ->
     as_ScriptWorkerException e = Some exit_code ->
     value (do_upload tw t s) = Returned (worst_level 0 exit_code)) /\
  (result (w_upload_artifacts tw) = Returned tt ->
   value (do_upload tw t s) = Returned 0).
Proof.
  rewrite do_upload_run. cbn [value]. repeat split.
  - intros msg ->. reflexivity.
  - intros e c -> ->. reflexivity.
  - intros ->. reflexivity.
Qed.

End Upload.

(** * The iteration *)

Ltac post_any :=
  repeat first
    [ apply post_ret
    | apply post_get
    | apply post_emit; exact I
    | apply post_modify; intro; unfold frame; cbn; auto
    | apply post_bind; [|intros ?] ].

Section Iteration.

Variable worst_level : Z -> Z -> Z.
Variable STATUSES : string -> Z.

Local Abbreviation do_run_task := (Worker.do_run_task worst_level STATUSES).
Local Abbreviation do_upload := (Worker.do_upload worst_level STATUSES).
Local Abbreviation run_one := (Worker.run_one worst_level STATUSES).
Local Abbreviation for_tasks := (Worker.for_tasks worst_level STATUSES).
Local Abbreviation invoke := (Worker.invoke worst_level STATUSES).
Local Abbreviation run_tasks := (Worker.run_tasks worst_level STATUSES).

Lemma post_run_one (tw : task_world) (i : nat) (t : task_defn) :
  post any_event any_exn (run_one tw i t).
Proof.
  unfold Worker.run_one.
  apply post_bind; [post_any|intros _].
  apply post_bind; [post_any|intros _].
  apply post_bind; [apply post_lift; intros; exact I|intros _].
  apply post_bind; [post_any|intros _].
  apply post_bind;
    [apply post_do_run_task; try exact I; intros; exact I|intros status].
  apply post_bind; [apply post_do_upload; try exact I; intros; exact I|intros upload].
  apply post_bind; [post_any|intros _].
  apply post_bind; [apply post_await; intros; exact I|intros _].
  apply post_bind; [post_any|intros _].
  apply post_bind; [post_any|intros _].
  apply post_bind; [apply post_lift; intros; exact I|intros _].
  post_any.
Qed.

Lemma post_for_tasks (w : world) (ts : list task_defn) :
  forall (i : nat) (status : option Z), post any_event any_exn (for_tasks w i ts status).
Proof.
  induction ts as [|t ts IH]; intros i status; cbn [Worker.for_tasks]; [post_any|].
  apply post_bind; [apply post_run_one|intros st; apply IH].
Qed.

(** [invoke] keeps the frame and raises no [CancelledError]. *)
Lemma post_invoke (w : world) : post any_event not_cancelled (invoke w).
Proof.
  unfold Worker.invoke.
  apply post_try_except with (E0 := any_exn).
  - apply post_bind;
      [apply post_run_cancellable; intros; exact I|intros tasks].
    destruct (no_work tasks).
    + apply post_bind; [post_any|intros interval].
      apply post_bind; [apply post_run_cancellable; intros; exact I|intros _].
      post_any.
    + destruct tasks as [d|]; [apply post_for_tasks|].
      apply post_raise; exact I.
  - intros e _. destruct e; cbn [is_CancelledError]; try discriminate. post_any.
Qed.

(** C2, as the code has it: [run_tasks] makes a new [RunTasks], sets
    [context.running_tasks] to it and then runs the iteration, which the
    SIGTERM handler can therefore reach.  When the iteration returns, by a
    status or by the [None] of a cancellation, the reference is cleared.  When
    an exception leaves the iteration, which is never a [CancelledError], it
    leaves [run_tasks] too, and the reference still names that object. *)
Theorem run_tasks_registers_and_clears (w : world) (s : state) :
  let s1 := set_running_tasks (Some (next_ref s)) (new_RunTasks s) in
  (running_tasks (context s1) = Some (self_ref s1) /\
   self s1 = RunTasks_init /\ reaches s1 = true) /\
  events (run_tasks w s) = events (invoke w s1) /\
  (forall status, value (run_tasks w s) = Returned status ->
     value (invoke w s1) = Returned status /\
     running_tasks (context (final (run_tasks w s))) = None) /\
  (forall e, value (run_tasks w s) = Raised e ->
     value (invoke w s1) = Raised e /\ e <> CancelledError /\
     running_tasks (context (final (run_tasks w s))) = Some (next_ref s)).
Proof.
  intros s1. split.
  { repeat split. unfold reaches; cbn. apply Nat.eqb_refl. }
  rewrite run_tasks_run. fold s1. cbn zeta.
  destruct (post_invoke w s1) as (Hf & _ & He).
  destruct (value (invoke w s1)) as [status|e] eqn:Hv; cbn [value final events].
  - split; [reflexivity|]. split; [|discriminate].
    intros st [= <-]. split; reflexivity.
  - split; [reflexivity|]. split; [discriminate|].
    intros e' [= <-]. split; [reflexivity|]. split; [exact (He e eq_refl)|].
    destruct Hf as (Hr & _). rewrite Hr. reflexivity.
Qed.


End Iteration.

(** * The status reported *)

Lemma reported_app (l1 l2 : list event) :
  reported (l1 ++ l2) = reported l1 ++ reported l2.
Proof.
  induction l1 as [|e l1 IH]; [reflexivity|].
  destruct e; cbn; rewrite ?IH; reflexivity.
Qed.

Lemma reported_no_report (l : list event) : Forall no_report l -> reported l = [].
Proof.
  induction 1 as [|e l He _ IH]; [reflexivity|].
  destruct e; cbn; try exact IH. destruct He.
Qed.

Lemma token_event_no_report (e : event) : token_event e -> no_report e.
Proof. destruct e; cbn; intros []; exact I. Qed.

Section Status.

Variable worst_level : Z -> Z -> Z.
Variable STATUSES : string -> Z.

Local Abbreviation do_run_task := (Worker.do_run_task worst_level STATUSES).
Local Abbreviation do_upload := (Worker.do_upload worst_level STATUSES).
Local Abbreviation run_one := (Worker.run_one worst_level STATUSES).
Local Abbreviation for_tasks := (Worker.for_tasks worst_level STATUSES).
Local Abbreviation invoke := (Worker.invoke worst_level STATUSES).

Lemma do_run_task_no_report (tw : task_world) (t : task_defn) (s : state) :
  Forall no_report (events (do_run_task tw t s)).
Proof.
  destruct (post_do_run_task worst_level STATUSES no_report token_event_no_report
              any_exn tw t I I (fun _ _ _ => I) s) as (_ & H & _).
  exact H.
Qed.

Lemma do_upload_no_report (tw : task_world) (t : task_defn) (s : state) :
  Forall no_report (events (do_upload tw t s)).
Proof.
  destruct (post_do_upload worst_level STATUSES no_report token_event_no_report
              any_exn tw t I (fun _ _ _ _ => I) s) as (_ & H & _).
  exact H.
Qed.

Lemma run_cancellable_no_report {A} (c : cancellable) (a : awaitable A) (s : state) :
  Forall no_report (events (_run_cancellable c a s)).
Proof.
  destruct (post_run_cancellable no_report token_event_no_report any_exn c a
              I (fun _ _ => I) s) as (_ & H & _).
  exact H.
Qed.

Lemma signal_events_no_report (n : nat) (s : state) :
  Forall no_report (signal_events n s).
Proof.
  eapply Forall_impl; [exact token_event_no_report | apply signal_events_token].
Qed.

(** The loop body, when the preparation and both stages return: one
    report, of the worse of the two statuses. *)
Lemma run_one_reports (tw : task_world) (i : nat) (t : task_defn) (s : state) (a b : Z) :
  w_prepare_to_run_task tw = Returned tt ->
  value (do_run_task tw t (set_task (Some t) s)) = Returned a ->
  value (do_upload tw t (final (do_run_task tw t (set_task (Some t) s)))) = Returned b ->
  reported (events (run_one tw i t s)) = [worst_level a b] /\
  In (CompleteTask t (worst_level a b)) (events (run_one tw i t s)) /\
  (result (w_complete_task tw) = Returned tt ->
   w_cleanup tw = Returned tt ->
   value (run_one tw i t s) = Returned (worst_level a b)).
Proof.
  intros Hp Ha Hb. rewrite run_one_run. cbn zeta. rewrite Hp, Ha, Hb.
  rewrite await_run. cbn [value final events].
  pose proof (do_run_task_no_report tw t (set_task (Some t) s)) as H1.
  pose proof (do_upload_no_report tw t
                (final (do_run_task tw t (set_task (Some t) s)))) as H2.
  set (ev1 := events (do_run_task tw t (set_task (Some t) s))) in *.
  set (ev2 := events (do_upload tw t _)) in *.
  set (ev3 := signal_events _ _).
  assert (H3 : Forall no_report ev3) by apply signal_events_no_report.
  assert (Hrep : forall tail, Forall no_report tail ->
            reported (PrepareToRunTask t :: ReclaimStarted i ::
                      ev1 ++ ev2 ++ CompleteTask t (worst_level a b) :: ev3 ++ tail)
            = [worst_level a b]).
  { intros tail Ht. cbn [reported].
    rewrite reported_app, (reported_no_report _ H1).
    rewrite reported_app, (reported_no_report _ H2).
    cbn [reported app].
    rewrite reported_app, (reported_no_report _ H3), (reported_no_report _ Ht).
    reflexivity. }
  assert (Hin : forall tail,
            In (CompleteTask t (worst_level a b))
               (PrepareToRunTask t :: ReclaimStarted i ::
                ev1 ++ ev2 ++ CompleteTask t (worst_level a b) :: ev3 ++ tail)).
  { intros tail. right; right. apply in_or_app; right. apply in_or_app; right.
    left; reflexivity. }
  destruct (result (w_complete_task tw)) as [[]|e3].
  - assert (Ht : Forall no_report [ReclaimCancelled i; Cleanup])
      by (repeat constructor).
    destruct (w_cleanup tw) as [[]|e4]; cbn [value events];
      (split; [apply Hrep; exact Ht|split; [apply Hin|]]);
      [reflexivity | discriminate].
  - cbn [value events].
    rewrite <- (app_nil_r ev3).
    split; [apply Hrep; constructor|split; [apply Hin|discriminate]].
Qed.

(** C4: in an iteration that claims one task and runs its execute and
    upload stages, the status handed to [complete_task], and returned when
    the report and the cleanup succeed, is [worst_level] of the status of
    [do_run_task] and the status of [do_upload].  When the task script raises
    a structured failure with exit code [c], the upload succeeds, and 0 is
    the least severe status next to [c], that status is [c]. *)
Theorem reported_status_is_worst_of_stages (w : world) (s : state) (t : task_defn)
    (a b : Z) :
  value (_run_cancellable claim_work (w_claim_work w) s) = Returned (Some (Some [t])) ->
  w_prepare_to_run_task (w_task w 0) = Returned tt ->
  value (do_run_task (w_task w 0) t (at_execute w t s)) = Returned a ->
  value (do_upload (w_task w 0) t
           (final (do_run_task (w_task w 0) t (at_execute w t s)))) = Returned b ->
  reported (events (invoke w s)) = [worst_level a b] /\
  (result (w_complete_task (w_task w 0)) = Returned tt ->
   w_cleanup (w_task w 0) = Returned tt ->
   value (invoke w s) = Returned (Some (worst_level a b))) /\
  (forall p msg c,
     value (verify_step STATUSES (w_task w 0) t (at_execute w t s)) = Returned tt ->
     result (w_create_subprocess (w_task w 0)) = Returned p ->
     result (w_process_wait (w_task w 0)) = Raised (ScriptWorkerException msg c) ->
     result (w_upload_artifacts (w_task w 0)) = Returned tt ->
     worst_level 0 c = c -> worst_level c 0 = c ->
     a = c /\ b = 0 /\ worst_level a b = c).
Proof.
  intros Hc Hp Ha Hb.
  destruct (run_one_reports (w_task w 0) 0%nat t (after_claim w s) a b Hp Ha Hb)
    as (Hrep & _ & Hval).
  split; [|split].
  - rewrite (invoke_single _ _ w s t Hc). cbn zeta. cbn [events].
    rewrite reported_app, (reported_no_report _ (run_cancellable_no_report _ _ _)).
    exact Hrep.
  - intros H3 H4. rewrite (invoke_single _ _ w s t Hc). cbn zeta. cbn [value].
    unfold after_claim in Hval. rewrite (Hval H3 H4). reflexivity.
  - intros p msg c Hv Hcr Hw Hu Hl Hr.
    assert (Ha' : a = c).
    { revert Ha. rewrite do_run_task_run. cbn zeta. rewrite Hv.
      rewrite run_task_run. cbn zeta. rewrite Hcr, Hw.
      cbn [value handled as_ScriptWorkerException]. rewrite Hl. now intros [= <-]. }
    assert (Hb' : b = 0).
    { revert Hb. rewrite do_upload_run. cbn zeta. rewrite Hu. now intros [= <-]. }
    subst a b. auto.
Qed.

(** C8: when the claim gives the tasks [ts] and then [t], and the
    iteration returns a status, the tasks before [t] were run to their end
    first, one after the other, then [t] was run from the state they left,
    and the status returned is the status of [t] alone. *)
Theorem status_is_of_last_task (w : world) (s : state) (ts : list task_defn)
    (t : task_defn) (r : Z) :
  value (_run_cancellable claim_work (w_claim_work w) s) =
    Returned (Some (Some (ts ++ [t]))) ->
  value (invoke w s) = Returned (Some r) ->
  let before := for_tasks w 0 ts None (after_claim w s) in
  let last := run_one (w_task w (List.length ts)) (List.length ts) t (final before) in
  (exists st, value before = Returned st) /\
  value last = Returned r /\
  events (invoke w s) =
    events (_run_cancellable claim_work (w_claim_work w) s) ++
    events before ++ events last.
Proof.
  intros Hc Hv before last. revert Hv.
  rewrite invoke_run. cbn zeta. rewrite Hc.
  assert (Hn : no_work (Some (Some (ts ++ [t]))) = false).
  { cbn. destruct ts; reflexivity. }
  rewrite Hn. cbn [get_tasks value events].
  rewrite for_tasks_snoc. unfold bind. cbn [Nat.add].
  fold (after_claim w s). fold before.
  destruct before as [[st|e] s1 ev1] eqn:Hb; subst last; cbn [value final events].
  - destruct (run_one (w_task w (List.length ts)) (List.length ts) t s1)
      as [[st'|e'] s2 ev2]; cbn [ret value final events absorbed].
    + intros [= <-]. rewrite app_nil_r. split; [eexists; reflexivity|].
      split; reflexivity.
    + destruct e'; discriminate.
  - destruct e; discriminate.
Qed.

(** C10: when the verification of the chain of trust raises a structured
    failure with exit code [c], the loop body calls neither [run_task] nor
    [generate_cot]; it uploads the artifacts and, when the upload stage gives
    a status [b], reports [worst_level (worst_level 0 c) b] to the queue, and
    returns it when the report and the cleanup succeed. *)
Theorem verification_failure_still_reports (tw : task_world) (i : nat) (t : task_defn)
    (s : state) (e : exn) (c b : Z) :
  w_prepare_to_run_task tw = Returned tt ->
  value (verify_step STATUSES tw t (set_task (Some t) s)) = Raised e ->
  as_ScriptWorkerException e = Some c ->
  value (do_upload tw t (final (verify_step STATUSES tw t (set_task (Some t) s))))
    = Returned b ->
  let status := worst_level (worst_level 0 c) b in
  Forall no_execution (events (run_one tw i t s)) /\
  In (UploadArtifacts t) (events (run_one tw i t s)) /\
  In (CompleteTask t status) (events (run_one tw i t s)) /\
  reported (events (run_one tw i t s)) = [status] /\
  (result (w_complete_task tw) = Returned tt ->
   w_cleanup tw = Returned tt ->
   value (run_one tw i t s) = Returned status).
Proof.
  intros Hp Hv Hs Hb status.
  assert (Hrun : do_run_task tw t (set_task (Some t) s) =
                 Run (Returned (worst_level 0 c))
                     (final (verify_step STATUSES tw t (set_task (Some t) s)))
                     (events (verify_step STATUSES tw t (set_task (Some t) s)))).
  { rewrite do_run_task_run. cbn zeta. rewrite Hv. unfold handled. rewrite Hs.
    reflexivity. }
  assert (Ha : value (do_run_task tw t (set_task (Some t) s))
               = Returned (worst_level 0 c)) by (rewrite Hrun; reflexivity).
  assert (Hb' : value (do_upload tw t (final (do_run_task tw t (set_task (Some t) s))))
                = Returned b) by (rewrite Hrun; exact Hb).
  destruct (run_one_reports tw i t s _ _ Hp Ha Hb') as (Hrep & Hin & Hval).
  assert (Hver : Forall no_execution
                   (events (verify_step STATUSES tw t (set_task (Some t) s)))).
  { rewrite verify_step_run.
    destruct (verify_chain_of_trust_enabled _); [|constructor].
    destruct (post_cancellable_verify STATUSES no_execution token_event_no_execution
                any_exn t (w_verify_chain_of_trust tw) I (fun _ _ _ => I)
                (set_task (Some t) s)) as (_ & H & _).
    exact H. }
  assert (Hsig : forall n s', Forall no_execution (signal_events n s')).
  { intros n s'. eapply Forall_impl;
      [exact token_event_no_execution | apply signal_events_token]. }
  split; [|split; [|split; [exact Hin|split; [exact Hrep|exact Hval]]]].
  - rewrite run_one_run. cbn zeta. rewrite Hp, Ha, Hb'. rewrite Hrun.
    cbn [value final events]. rewrite do_upload_run, await_run.
    cbn [value final events].
    assert (Hall : forall tail, Forall no_execution tail ->
              Forall no_execution
                (PrepareToRunTask t :: ReclaimStarted i ::
                 events (verify_step STATUSES tw t (set_task (Some t) s)) ++
                 (UploadArtifacts t ::
                  signal_events (signals (w_upload_artifacts tw))
                    (final (verify_step STATUSES tw t (set_task (Some t) s)))) ++
                 CompleteTask t (worst_level (worst_level 0 c) b) ::
                 signal_events (signals (w_complete_task tw))
                   (after_signals (signals (w_upload_artifacts tw))
                      (final (verify_step STATUSES tw t (set_task (Some t) s)))) ++
                 tail)).
    { intros tail Ht. repeat constructor.
      apply Forall_app; split; [exact Hver|].
      apply Forall_app; split; [constructor; [reflexivity|apply Hsig]|].
      constructor; [reflexivity|]. apply Forall_app; split; [apply Hsig|exact Ht]. }
    destruct (result (w_complete_task tw)) as [[]|e3]; cbn [value events].
    + destruct (w_cleanup tw) as [[]|e4]; cbn [events]; apply Hall;
        repeat constructor.
    + rewrite <- (app_nil_r (signal_events (signals (w_complete_task tw)) _)).
      apply Hall; constructor.
  - rewrite run_one_run. cbn zeta. rewrite Hp, Ha, Hb'. rewrite Hrun.
    cbn [value final events]. rewrite do_upload_run. cbn [value final events].
    assert (Hup : forall l1 l2 rest (x : run Z),
              events x = PrepareToRunTask t :: ReclaimStarted i ::
                         l1 ++ (UploadArtifacts t :: l2) ++ rest ->
              In (UploadArtifacts t) (events x)).
    { intros l1 l2 rest x ->. right; right. apply in_or_app; right.
      left; reflexivity. }
    destruct (value (await (w_complete_task tw) _)) as [[]|e3];
      [destruct (w_cleanup tw) as [[]|e4]|]; eapply Hup; reflexivity.
Qed.

End Status.

(** * Examples *)


(** An exception the worker does not know leaves [run_tasks] with the
    reference still set. *)
Lemma run_tasks_leaves_reference_on_exception :
  value (run_tasks numeric_worst_level example_STATUSES unexpected_failure (idle false))
    = Raised (Unexpected "boom"%string) /\
  running_tasks
    (context (final (run_tasks numeric_worst_level example_STATUSES
                       unexpected_failure (idle false)))) = Some 1%nat /\
  running_tasks
    (context (final (run_tasks numeric_worst_level example_STATUSES
                       unexpected_failure (idle false)))) <> None.
Proof. vm_compute. repeat split; discriminate. Defined.

Lemma run_tasks_registers_and_clears_witness :
  value (run_tasks numeric_worst_level example_STATUSES
           (claims [7%nat] (fun _ => task_succeeds)) (idle true)) = Returned (Some 0) /\
  running_tasks
    (context (final (run_tasks numeric_worst_level example_STATUSES
                       (claims [7%nat] (fun _ => task_succeeds)) (idle true)))) = None.
Proof.
  split; [reflexivity|].
  apply (run_tasks_registers_and_clears numeric_worst_level example_STATUSES
           (claims [7%nat] (fun _ => task_succeeds)) (idle true)) with (status := Some 0).
  reflexivity.
Defined.

(** Two calls of [cancel] ask the registered process to terminate twice. *)
Lemma cancel_twice_requests_twice :
  task_process (self process_registered) = Some 42%nat /\
  stop_requests 42%nat (events ((cancel;;; cancel) process_registered)) = 2%nat /\
  stop_requests 42%nat (events ((cancel;;; cancel) process_registered)) <> 1%nat /\
  stop_requests 42%nat (events ((cancel;;; cancel) process_registered)) <>
  stop_requests 42%nat (events (cancel process_registered)).
Proof. vm_compute. repeat split; discriminate. Defined.

Lemma cancel_requests_once_per_call_witness :
  In (FutureCancel claim_work) (events (cancel claim_in_flight)) /\
  stop_requests 42%nat (events (cancel claim_in_flight)) = 1%nat /\
  stop_requests 42%nat (events ((cancel;;; cancel) claim_in_flight)) = 2%nat.
Proof.
  destruct (cancel_requests_once_per_call claim_in_flight)
    as (_ & _ & Hf & Hp & _).
  split; [exact (Hf claim_work eq_refl) | exact (Hp 42%nat eq_refl)].
Defined.

Lemma reported_status_is_worst_of_stages_witness :
  reported (events (invoke numeric_worst_level example_STATUSES script_fails
                      (registered true))) = [5] /\
  value (invoke numeric_worst_level example_STATUSES script_fails (registered true))
    = Returned (Some 5) /\
  numeric_worst_level 5 0 = 5.
Proof.
  destruct (reported_status_is_worst_of_stages numeric_worst_level example_STATUSES
              script_fails (registered true) 7%nat 5 0
              eq_refl eq_refl eq_refl eq_refl) as (H1 & H2 & H3).
  split; [exact H1|]. split; [exact (H2 eq_refl eq_refl)|].
  exact (proj2 (proj2 (H3 42%nat "task failed"%string 5
                         eq_refl eq_refl eq_refl eq_refl eq_refl eq_refl))).
Defined.

Lemma verification_abort_is_worker_shutdown_witness :
  value (cancellable_verify_chain_of_trust example_STATUSES 7%nat
           (interrupted 1 (Returned tt)) (registered true))
    = Raised (CoTError "Chain of Trust verification was aborted"%string 8) /\
  cancellable_verify_chain_of_trust example_STATUSES 7%nat
    (undisturbed (Returned tt)) (set_is_cancelled true (registered true))
    = Run (Raised (CoTError "Chain of Trust verification was aborted"%string 8))
          (set_is_cancelled true (registered true)) [].
Proof.
  split.
  - apply (verification_abort_is_worker_shutdown example_STATUSES 7%nat
             (interrupted 1 (Returned tt)) (registered true)); reflexivity.
  - apply (verification_abort_is_worker_shutdown example_STATUSES 7%nat
             (undisturbed (Returned tt)) (set_is_cancelled true (registered true)));
      reflexivity.
Defined.



Lemma run_cancellable_contract_witness :
  _run_cancellable claim_work (undisturbed (Returned 3%nat))
    (set_is_cancelled true (registered true))
    = Run (Raised CancelledError) (set_is_cancelled true (registered true)) [] /\
  In (FutureCancel claim_work)
     (events (_run_cancellable claim_work (interrupted 1 (Returned 3%nat))
                (registered true))) /\
  value (_run_cancellable claim_work (undisturbed (Returned 3%nat)) (registered true))
    = Returned 3%nat /\
  future (self (final (_run_cancellable claim_work (undisturbed (Returned 3%nat))
                         (registered true)))) = None.
Proof.
  split; [|split].
  - apply (run_cancellable_contract claim_work (undisturbed (Returned 3%nat))
             (set_is_cancelled true (registered true))); reflexivity.
  - apply (run_cancellable_contract claim_work (interrupted 1 (Returned 3%nat))
             (registered true)); reflexivity.
  - apply (run_cancellable_contract claim_work (undisturbed (Returned 3%nat))
             (registered true)); reflexivity.
Defined.

Lemma status_is_of_last_task_witness :
  value (invoke numeric_worst_level example_STATUSES first_fails_then_succeeds
           (registered true)) = Returned (Some 0) /\
  reported (events (invoke numeric_worst_level example_STATUSES
                      first_fails_then_succeeds (registered true))) = [5; 0] /\
  value (run_one numeric_worst_level example_STATUSES
           (w_task first_fails_then_succeeds 1%nat) 1%nat 8%nat
           (final (for_tasks numeric_worst_level example_STATUSES
                     first_fails_then_succeeds 0%nat [7%nat] None
                     (after_claim first_fails_then_succeeds (registered true)))))
    = Returned 0.
Proof.
  split; [reflexivity|]. split; [reflexivity|].
  apply (status_is_of_last_task numeric_worst_level example_STATUSES
           first_fails_then_succeeds (registered true) [7%nat] 8%nat 0);
    reflexivity.
Defined.

Lemma upload_transport_error_is_intermittent_witness :
  value (do_upload numeric_worst_level example_STATUSES upload_transport_error 7%nat
           (registered true)) = Returned 7.
Proof.
  apply (upload_transport_error_is_intermittent numeric_worst_level example_STATUSES
           upload_transport_error 7%nat (registered true))
    with (msg := "connection reset"%string).
  reflexivity.
Defined.

Lemma verification_failure_still_reports_witness :
  Forall no_execution
    (events (run_one numeric_worst_level example_STATUSES verification_fails 0%nat 7%nat
               (registered true))) /\
  In (UploadArtifacts 7%nat)
    (events (run_one numeric_worst_level example_STATUSES verification_fails 0%nat 7%nat
               (registered true))) /\
  In (CompleteTask 7%nat 3)
    (events (run_one numeric_worst_level example_STATUSES verification_fails 0%nat 7%nat
               (registered true))) /\
  value (run_one numeric_worst_level example_STATUSES verification_fails 0%nat 7%nat
           (registered true)) = Returned 3.
Proof.
  destruct (verification_failure_still_reports numeric_worst_level example_STATUSES
              verification_fails 0%nat 7%nat (registered true)
              (CoTError "bad signature"%string 3) 3 0
              eq_refl eq_refl eq_refl eq_refl) as (H1 & H2 & H3 & _ & H5).
  split; [exact H1|]. split; [exact H2|]. split; [exact H3|].
  exact (H5 eq_refl eq_refl).
Defined.

(** * Invariants of the iteration *)

Section Keeps.

Variable R : state -> state -> Prop.
Variable N : nat -> Prop.
Hypothesis R_refl : forall s, R s s.
Hypothesis R_trans : forall s1 s2 s3, R s1 s2 -> R s2 s3 -> R s1 s3.
Hypothesis R_future : forall f s, R s (set_future f s).
Hypothesis R_process : forall p s, R s (set_task_process (Some p) s).
Hypothesis R_task : forall t s, R s (set_task (Some t) s).
Hypothesis R_signals : forall n s, N n -> R s (after_signals n s).

Lemma keeps_ret {A} (a : A) : keeps R (ret a).
Proof. intro s; apply R_refl. Qed.

Lemma keeps_raise {A} (e : exn) : keeps R (@raise A e).
Proof. intro s; apply R_refl. Qed.

Lemma keeps_lift {A} (o : outcome A) : keeps R (lift o).
Proof. intro s; apply R_refl. Qed.

Lemma keeps_emit (e : event) : keeps R (emit e).
Proof. intro s; apply R_refl. Qed.

Lemma keeps_get {A} (f : state -> A) : keeps R (get f).
Proof. intro s; apply R_refl. Qed.

Lemma keeps_bind {A B} (m : M A) (k : A -> M B) :
  keeps R m -> (forall a, keeps R (k a)) -> keeps R (bind m k).
Proof.
  intros Hm Hk s. unfold bind. specialize (Hm s).
  destruct (m s) as [[a|e] s1 evs]; cbn in Hm |- *; [|exact Hm].
  specialize (Hk a s1). destruct (k a s1) as [v s2 evs']; cbn in Hk |- *.
  eapply R_trans; eassumption.
Qed.

Lemma keeps_try_except {A} (m : M A) (clause : exn -> option (M A)) :
  keeps R m ->
  (forall e h, clause e = Some h -> keeps R h) ->
  keeps R (try_except m clause).
Proof.
  intros Hm Hc s. unfold try_except. specialize (Hm s).
  destruct (m s) as [[a|e] s1 evs]; cbn in Hm |- *; [exact Hm|].
  destruct (clause e) as [h|] eqn:He; [|exact Hm].
  specialize (Hc e h He s1). destruct (h s1) as [v s2 evs']; cbn in Hc |- *.
  eapply R_trans; eassumption.
Qed.

Lemma keeps_guarded {A B} (clause : exn -> option (M B)) (m : M A) (k : A -> M B) :
  keeps R m ->
  (forall e h, clause e = Some h -> keeps R h) ->
  (forall a, keeps R (k a)) ->
  keeps R (guarded clause m k).
Proof.
  intros Hm Hc Hk s. unfold guarded. specialize (Hm s).
  destruct (m s) as [[a|e] s1 evs]; cbn in Hm |- *.
  - specialize (Hk a s1). destruct (k a s1) as [v s2 evs']; cbn in Hk |- *.
    eapply R_trans; eassumption.
  - destruct (clause e) as [h|] eqn:He; [|exact Hm].
    specialize (Hc e h He s1). destruct (h s1) as [v s2 evs']; cbn in Hc |- *.
    eapply R_trans; eassumption.
Qed.

Lemma keeps_await {A} (a : awaitable A) : N (signals a) -> keeps R (await a).
Proof. intros Hn s. rewrite await_run. cbn. apply R_signals, Hn. Qed.

Lemma keeps_run_cancellable {A} (c : cancellable) (a : awaitable A) :
  N (signals a) -> keeps R (_run_cancellable c a).
Proof.
  intros Hn s. rewrite run_cancellable_run.
  destruct (is_cancelled (self s)); [apply R_refl|]. cbn zeta.
  assert (H1 : R s (after_signals (signals a) (set_future (Some c) s))).
  { eapply R_trans; [apply R_future | apply R_signals, Hn]. }
  destruct (if cancelled_during a s && honours_cancel a
            then Raised CancelledError else result a); cbn [final]; [|exact H1].
  eapply R_trans; [exact H1 | apply R_future].
Qed.

Lemma keeps_to_cancellable_process (p : TaskProcess) :
  keeps R (to_cancellable_process p).
Proof.
  intro s. unfold to_cancellable_process, bind, modify, get. cbn.
  destruct (is_cancelled (self s)); cbn; apply R_process.
Qed.

Section KeepsCode.

Variable worst_level : Z -> Z -> Z.
Variable STATUSES : string -> Z.

Lemma keeps_cancellable_verify (chain : task_defn) (a : awaitable unit) :
  N (signals a) -> keeps R (cancellable_verify_chain_of_trust STATUSES chain a).
Proof.
  intros Hn. unfold cancellable_verify_chain_of_trust.
  apply keeps_bind; [apply keeps_get|intros c].
  destruct c; [apply keeps_raise|].
  apply keeps_try_except; [apply keeps_run_cancellable, Hn|].
  intros e h. destruct (is_CancelledError e); [|discriminate].
  intros [= <-]. apply keeps_raise.
Qed.

Lemma keeps_run_task (tw : task_world) (t : task_defn) :
  calm_task N tw -> keeps R (run_task tw t).
Proof.
  intros (_ & H2 & H3 & _). unfold run_task.
  apply keeps_bind; [apply keeps_emit|intros _].
  apply keeps_bind; [apply keeps_await, H2|intros p].
  apply keeps_bind; [apply keeps_to_cancellable_process|intros _].
  apply keeps_await, H3.
Qed.

Lemma keeps_do_run_task (tw : task_world) (t : task_defn) :
  calm_task N tw -> keeps R (do_run_task worst_level STATUSES tw t).
Proof.
  intros Hc. unfold do_run_task.
  assert (Hclause : forall status e h,
             except_do_run_task worst_level status e = Some h -> keeps R h).
  { intros status e h. unfold except_do_run_task.
    destruct (as_ScriptWorkerException e); [|discriminate].
    intros [= <-]. apply keeps_ret. }
  apply keeps_guarded; [|apply Hclause|intros _].
  { apply keeps_bind; [apply keeps_get|intros v].
    destruct v; [|apply keeps_ret].
    apply keeps_cancellable_verify. exact (proj1 Hc). }
  apply keeps_guarded; [apply keeps_run_task, Hc|apply Hclause|intros status].
  apply keeps_guarded; [|apply Hclause|intros _; apply keeps_ret].
  apply keeps_bind; [apply keeps_emit|intros _; apply keeps_lift].
Qed.

Lemma keeps_do_upload (tw : task_world) (t : task_defn) :
  calm_task N tw -> keeps R (do_upload worst_level STATUSES tw t).
Proof.
  intros (_ & _ & _ & H4 & _). unfold do_upload.
  apply keeps_guarded; [| |intros _; apply keeps_ret].
  - apply keeps_bind; [apply keeps_emit|intros _; apply keeps_await, H4].
  - intros e h. unfold except_do_upload.
    destruct (as_ScriptWorkerException e); [intros [= <-]; apply keeps_ret|].
    destruct (is_ClientError e); [intros [= <-]; apply keeps_ret|discriminate].
Qed.

Lemma keeps_run_one (tw : task_world) (i : nat) (t : task_defn) :
  calm_task N tw -> keeps R (run_one worst_level STATUSES tw i t).
Proof.
  intros Hc. unfold run_one.
  apply keeps_bind; [apply keeps_emit|intros _].
  apply keeps_bind; [intro s; apply R_task|intros _].
  apply keeps_bind; [apply keeps_lift|intros _].
  apply keeps_bind; [apply keeps_emit|intros _].
  apply keeps_bind; [apply keeps_do_run_task, Hc|intros status].
  apply keeps_bind; [apply keeps_do_upload, Hc|intros upload].
  apply keeps_bind; [apply keeps_emit|intros _].
  apply keeps_bind; [apply keeps_await; apply Hc|intros _].
  apply keeps_bind; [apply keeps_emit|intros _].
  apply keeps_bind; [apply keeps_emit|intros _].
  apply keeps_bind; [apply keeps_lift|intros _; apply keeps_ret].
Qed.

Lemma keeps_for_tasks (w : world) (ts : list task_defn) :
  (forall i, calm_task N (w_task w i)) ->
  forall (i : nat) (status : option Z),
    keeps R (for_tasks worst_level STATUSES w i ts status).
Proof.
  intros Hc. induction ts as [|t ts IH]; intros i status; cbn [for_tasks].
  - apply keeps_ret.
  - apply keeps_bind; [apply keeps_run_one, Hc|intros st; apply IH].
Qed.

Lemma keeps_invoke (w : world) :
  calm_world N w -> keeps R (invoke worst_level STATUSES w).
Proof.
  intros (H1 & H2 & H3). unfold invoke.
  apply keeps_try_except.
  - apply keeps_bind; [apply keeps_run_cancellable, H1|intros tasks].
    destruct (no_work tasks).
    + apply keeps_bind; [apply keeps_get|intros interval].
      apply keeps_bind; [apply keeps_run_cancellable, H2|intros _; apply keeps_ret].
    + destruct tasks as [d|]; [apply keeps_for_tasks, H3|apply keeps_raise].
  - intros e h. destruct (is_CancelledError e); [|discriminate].
    intros [= <-]. apply keeps_ret.
Qed.

End KeepsCode.

End Keeps.

Lemma calm_any_number (w : world) : calm_world any_number w.
Proof. repeat split. Qed.

Lemma shutdown_order_refl (s : state) : shutdown_order s s.
Proof. split; auto. Qed.

Lemma shutdown_order_trans (s1 s2 s3 : state) :
  shutdown_order s1 s2 -> shutdown_order s2 s3 -> shutdown_order s1 s3.
Proof.
  intros (Ha & Hb) (Hc & Hd). split; [auto|].
  intros H3. destruct (Hd H3) as [H2|H2]; [|auto].
  destruct (Hb H2) as [H1|H1]; auto.
Qed.

Lemma shutdown_order_signals (n : nat) (s : state) :
  shutdown_order s (after_signals n s).
Proof.
  destruct n; [apply shutdown_order_refl|].
  unfold after_signals. destruct (reaches s); split; cbn; auto.
Qed.

Lemma shutdown_order_invoke (worst_level : Z -> Z -> Z) (STATUSES : string -> Z)
    (w : world) (s : state) :
  shutdown_order s (final (invoke worst_level STATUSES w s)).
Proof.
  apply (keeps_invoke shutdown_order any_number shutdown_order_refl
           shutdown_order_trans).
  - intros f s'; split; cbn; auto.
  - intros p s'; split; cbn; auto.
  - intros t s'; split; cbn; auto.
  - intros n s' _; apply shutdown_order_signals.
  - apply calm_any_number.
Qed.

Lemma process_kept_invoke (worst_level : Z -> Z -> Z) (STATUSES : string -> Z)
    (w : world) (s : state) :
  process_kept s (final (invoke worst_level STATUSES w s)).
Proof.
  apply (keeps_invoke process_kept any_number).
  - intros s' H; exact H.
  - intros s1 s2 s3 H1 H2 H; auto.
  - intros f s' H; exact H.
  - intros p s' _; discriminate.
  - intros t s' H; exact H.
  - intros n s' _ H. destruct n; [exact H|].
    unfold after_signals. destruct (reaches s'); exact H.
  - apply calm_any_number.
Qed.

Lemma untouched_invoke (worst_level : Z -> Z -> Z) (STATUSES : string -> Z)
    (w : world) (s : state) :
  calm_world no_signal w ->
  untouched s (final (invoke worst_level STATUSES w s)).
Proof.
  intros Hc. revert w Hc s.
  apply (keeps_invoke untouched no_signal).
  - intros s'; split; reflexivity.
  - intros s1 s2 s3 (H1 & H2) (H3 & H4); split; congruence.
  - intros f s'; split; reflexivity.
  - intros p s'; split; reflexivity.
  - intros t s'; split; reflexivity.
  - intros n s' ->; split; reflexivity.
Qed.

(** * Further properties of the token and the stages *)

(** X1: a subprocess is adopted and the token is cancelled, in either
    order: [worker_shutdown_stop] is called on it exactly once, by
    [to_cancellable_process] when the cancellation came first, by [cancel]
    when the adoption came first; and it is the registered subprocess
    afterwards. *)
Theorem adoption_meets_cancellation (p : TaskProcess) (s : state) :
  is_cancelled (self s) = false ->
  task_process (self s) <> Some p ->
  stop_requests p (events ((cancel;;; to_cancellable_process p) s)) = 1%nat /\
  stop_requests p (events ((to_cancellable_process p;;; cancel) s)) = 1%nat /\
  task_process (self (final ((cancel;;; to_cancellable_process p) s))) = Some p /\
  task_process (self (final ((to_cancellable_process p;;; cancel) s))) = Some p.
Proof.
  destruct s as [ctx r [f q b] d n]. cbn [self is_cancelled task_process].
  intros -> Hq.
  assert (Hne : forall q0, q = Some q0 -> Nat.eqb p q0 = false).
  { intros q0 ->. apply Nat.eqb_neq. intros ->. apply Hq; reflexivity. }
  destruct f as [c|], q as [q0|]; cbn; rewrite ?Nat.eqb_refl, ?(Hne _ eq_refl);
    repeat split.
Qed.

(** X2: when [_run_cancellable] was entered with the flag clear and ends
    with an exception, that of the coroutine or the [CancelledError] of a
    cancelled future, [self.future] is not cleared: it still holds the
    coroutine. *)
Theorem run_cancellable_failure_keeps_future {A : Type} (coroutine : cancellable)
    (a : awaitable A) (s : state) (e : exn) :
  is_cancelled (self s) = false ->
  value (_run_cancellable coroutine a s) = Raised e ->
  future (self (final (_run_cancellable coroutine a s))) = Some coroutine /\
  (e = CancelledError \/ result a = Raised e).
Proof.
  intros Hc. rewrite run_cancellable_run, Hc. cbn zeta.
  destruct (cancelled_during a s && honours_cancel a).
  - cbn [value final]. intros [= <-]. split; [|left; reflexivity].
    destruct (signals a); cbn; [reflexivity|].
    destruct (reaches _); reflexivity.
  - destruct (result a) as [v|e']; cbn [value final]; [discriminate|].
    intros [= <-]. split; [|right; reflexivity].
    destruct (signals a); cbn; [reflexivity|].
    destruct (reaches _); reflexivity.
Qed.

(** X5: SIGTERM handled during the upload, with a subprocess still
    registered on the token of the iteration: [worker_shutdown_stop] is
    called on that subprocess, although [run_task] has ended. *)
Theorem sigterm_during_upload_stops_registered_process (worst_level : Z -> Z -> Z)
    (STATUSES : string -> Z) (tw : task_world) (t : task_defn) (s : state)
    (p : TaskProcess) :
  task_process (self s) = Some p ->
  reaches s = true ->
  signals (w_upload_artifacts tw) <> O ->
  In (WorkerShutdownStop p) (events (do_upload worst_level STATUSES tw t s)).
Proof.
  intros Hp Hr Hn. rewrite do_upload_run. cbn zeta. cbn [events].
  destruct (signals (w_upload_artifacts tw)) as [|n]; [congruence|].
  right. cbn [signal_events]. rewrite Hr. apply in_or_app; left.
  unfold cancel_events. rewrite Hp. apply in_or_app; right. left; reflexivity.
Qed.

Section StageProperties.

Variable worst_level : Z -> Z -> Z.
Variable STATUSES : string -> Z.

Local Abbreviation do_run_task := (Worker.do_run_task worst_level STATUSES).
Local Abbreviation do_upload := (Worker.do_upload worst_level STATUSES).
Local Abbreviation run_one := (Worker.run_one worst_level STATUSES).
Local Abbreviation invoke := (Worker.invoke worst_level STATUSES).
Local Abbreviation run_tasks := (Worker.run_tasks worst_level STATUSES).

(** X3: whatever the collaborators do and whenever SIGTERM is handled,
    [invoke] leaves [context.running_tasks], the configuration and the
    identity of [self] as they were, resets neither the cancelled flag nor
    [done], and does not clear a registered subprocess. *)
Theorem invoke_keeps_registration_and_flags (w : world) (s : state) :
  running_tasks (context (final (invoke w s))) = running_tasks (context s) /\
  config (context (final (invoke w s))) = config (context s) /\
  self_ref (final (invoke w s)) = self_ref s /\
  (is_cancelled (self s) = true -> is_cancelled (self (final (invoke w s))) = true) /\
  (done s = true -> done (final (invoke w s)) = true) /\
  (task_process (self s) <> None -> task_process (self (final (invoke w s))) <> None).
Proof.
  destruct (post_invoke worst_level STATUSES w s) as ((H1 & H2 & H3 & H4) & _ & _).
  destruct (shutdown_order_invoke worst_level STATUSES w s) as (H5 & _).
  pose proof (process_kept_invoke worst_level STATUSES w s) as H6.
  repeat split; auto.
Qed.

(** X4: the token of an iteration is cancelled by the SIGTERM handler
    only, which sets [done] first: when [run_tasks] ends with its token
    cancelled, [done] is set. *)
Theorem run_tasks_cancelled_implies_done (w : world) (s : state) :
  is_cancelled (self (final (run_tasks w s))) = true ->
  done (final (run_tasks w s)) = true.
Proof.
  rewrite run_tasks_run. cbn zeta.
  destruct (shutdown_order_invoke worst_level STATUSES w
              (set_running_tasks (Some (next_ref s)) (new_RunTasks s))) as (_ & H).
  destruct (value (invoke w _)); cbn [final]; intros Hc;
    (destruct (H Hc) as [Hf|Hd]; [discriminate Hf|exact Hd]).
Qed.

(** X6: a claim that gives nothing, [None], a dict without ['tasks'] or
    an empty list, while the token is not cancelled: the iteration sleeps for
    [poll_interval], prepares, runs and reports no task, and returns [None],
    unless the sleep itself fails. *)
Theorem invoke_without_work (w : world) (s : state) (tasks : claim_response) :
  is_cancelled (self s) = false ->
  cancelled_during (w_claim_work w) s = false ->
  result (w_claim_work w) = Returned tasks ->
  no_work tasks = true ->
  Forall token_event (events (invoke w s)) /\
  In (Scheduled (asyncio_sleep (poll_interval (config (context s)))))
     (events (invoke w s)) /\
  (value (invoke w s) = Returned None \/
   exists e, result (w_sleep w) = Raised e /\ e <> CancelledError /\
             value (invoke w s) = Raised e).
Proof.
  intros Hc Hd Hr Hn. rewrite invoke_run. cbn zeta.
  rewrite run_cancellable_run, Hc. cbn zeta. rewrite Hd, Hr.
  cbn [andb value final events]. rewrite Hn.
  set (s0 := set_future None
               (after_signals (signals (w_claim_work w)) (set_future (Some claim_work) s))).
  assert (Hc0 : is_cancelled (self s0) = false).
  { unfold s0. cbn [set_future set_self self is_cancelled].
    rewrite is_cancelled_after_signals. cbn [set_future set_self self is_cancelled].
    rewrite Hc. exact Hd. }
  assert (Hcfg : config (context s0) = config (context s)).
  { unfold s0. cbn. destruct (signals (w_claim_work w)); cbn; [reflexivity|].
    destruct (reaches _); reflexivity. }
  rewrite Hcfg. rewrite run_cancellable_run, Hc0. cbn zeta.
  set (sleep := asyncio_sleep (poll_interval (config (context s)))).
  assert (Hev : forall l1 l2,
             Forall token_event
               ((Scheduled claim_work :: l1) ++ Scheduled sleep :: l2) <->
             Forall token_event l1 /\ Forall token_event l2).
  { intros l1 l2. rewrite Forall_app. split.
    - intros (H1 & H2). inversion H1; inversion H2; auto.
    - intros (H1 & H2). split; constructor; cbn; auto. }
  assert (Hin : forall l1 l2,
             In (Scheduled sleep) ((Scheduled claim_work :: l1) ++ Scheduled sleep :: l2)).
  { intros l1 l2. apply in_or_app; right; left; reflexivity. }
  destruct (if cancelled_during (w_sleep w) s0 && honours_cancel (w_sleep w)
            then Raised CancelledError else result (w_sleep w)) as [[]|e] eqn:Hs;
    cbn [value final events].
  - split; [apply Hev; split; apply signal_events_token|].
    split; [apply Hin|left; reflexivity].
  - split; [apply Hev; split; apply signal_events_token|].
    split; [apply Hin|].
    destruct e; cbn [absorbed]; try (left; reflexivity); right;
      (destruct (cancelled_during (w_sleep w) s0 && honours_cancel (w_sleep w));
       [discriminate Hs|]);
      eexists; (split; [exact Hs|split; [discriminate|reflexivity]]).
Qed.

(** X7: with the verification switched off, [do_run_task] starts the task
    even when the token is already cancelled; the subprocess is asked to stop
    as soon as it is adopted. *)
Theorem cancelled_token_still_starts_task (tw : task_world) (t : task_defn) (s : state)
    (p : TaskProcess) :
  verify_chain_of_trust_enabled (config (context s)) = false ->
  is_cancelled (self s) = true ->
  result (w_create_subprocess tw) = Returned p ->
  In (RunTask t) (events (do_run_task tw t s)) /\
  In (WorkerShutdownStop p) (events (do_run_task tw t s)).
Proof.
  intros Hv Hc Hp. rewrite do_run_task_run. cbn zeta.
  rewrite verify_step_run, Hv. cbn [value final events].
  rewrite run_task_run. cbn zeta. rewrite Hp.
  assert (Hc1 : is_cancelled
                  (self (set_task_process (Some p)
                           (after_signals (signals (w_create_subprocess tw)) s)))
                = true).
  { cbn [set_task_process set_self self is_cancelled].
    rewrite is_cancelled_after_signals, Hc. reflexivity. }
  rewrite Hc1.
  destruct (result (w_process_wait tw)) as [status|e]; cbn [value final events];
    [destruct (w_generate_cot tw)|]; cbn [events app];
    (split; [left; reflexivity|right]);
    repeat rewrite in_app_iff; cbn [In]; auto 8.
Qed.

(** X8: [do_run_task] never raises a [ScriptWorkerException], a
    [CoTError] included: an exception that leaves it was raised by the
    verification, by [run_task] or by [generate_cot], and is of another
    class. *)
Theorem do_run_task_raises_only_unrecognised (tw : task_world) (t : task_defn)
    (s : state) (e : exn) :
  value (do_run_task tw t s) = Raised e ->
  as_ScriptWorkerException e = None /\
  (result (w_verify_chain_of_trust tw) = Raised e \/
   result (w_create_subprocess tw) = Raised e \/
   result (w_process_wait tw) = Raised e \/
   w_generate_cot tw = Raised e).
Proof.
  intros Hv.
  destruct (post_do_run_task worst_level STATUSES any_event (fun _ _ => I)
              (fun e => as_ScriptWorkerException e = None /\
                        (result (w_verify_chain_of_trust tw) = Raised e \/
                         result (w_create_subprocess tw) = Raised e \/
                         result (w_process_wait tw) = Raised e \/
                         w_generate_cot tw = Raised e))
              tw t I I) with (s := s) as (_ & _ & He).
  - intros e' Hs H. split; [exact Hs|]. tauto.
  - exact (He e Hv).
Qed.

(** X9: [do_upload] raises neither a [ScriptWorkerException] nor an
    [aiohttp.ClientError]: an exception that leaves it was raised by
    [upload_artifacts] and is of another class. *)
Theorem do_upload_raises_only_unrecognised (tw : task_world) (t : task_defn)
    (s : state) (e : exn) :
  value (do_upload tw t s) = Raised e ->
  as_ScriptWorkerException e = None /\
  is_ClientError e = false /\
  result (w_upload_artifacts tw) = Raised e.
Proof.
  rewrite do_upload_run. cbn [value].
  destruct (result (w_upload_artifacts tw)) as [[]|e']; [discriminate|].
  destruct (as_ScriptWorkerException e') eqn:Hs; [discriminate|].
  destruct (is_ClientError e') eqn:Hc; [discriminate|].
  intros [= <-]. auto.
Qed.

(** X10: when an exception leaves the loop body after the task was
    prepared, and it is not the cleanup that raised, the lease renewal
    started for the task is not cancelled: it is outstanding at the end. *)
Theorem renewal_left_on_escaping_exception (tw : task_world) (i : nat)
    (t : task_defn) (s : state) (e : exn) :
  w_prepare_to_run_task tw = Returned tt ->
  w_cleanup tw = Returned tt ->
  value (run_one tw i t s) = Raised e ->
  outstanding [] (events (run_one tw i t s)) = [i].
Proof.
  intros Hp Hcl. rewrite run_one_run. cbn zeta. rewrite Hp, Hcl.
  destruct (post_do_run_task worst_level STATUSES no_reclaim token_event_no_reclaim
              any_exn tw t eq_refl eq_refl (fun _ _ _ => I) (set_task (Some t) s))
    as (_ & H1 & _).
  destruct (value (do_run_task tw t (set_task (Some t) s))) as [a|e1].
  2:{ intros _. cbn [events outstanding]. now rewrite (outstanding_no_reclaim _ _ H1). }
  destruct (post_do_upload worst_level STATUSES no_reclaim token_event_no_reclaim
              any_exn tw t eq_refl (fun _ _ _ _ => I)
              (final (do_run_task tw t (set_task (Some t) s))))
    as (_ & H2 & _).
  destruct (value (do_upload tw t _)) as [b|e2].
  2:{ intros _. cbn [events outstanding].
      rewrite outstanding_app, (outstanding_no_reclaim _ _ H1).
      now rewrite (outstanding_no_reclaim _ _ H2). }
  rewrite await_run. cbn [value final events].
  destruct (result (w_complete_task tw)) as [[]|e3]; [discriminate|].
  intros _. cbn [events outstanding].
  rewrite outstanding_app, (outstanding_no_reclaim _ _ H1).
  rewrite outstanding_app, (outstanding_no_reclaim _ _ H2).
  cbn [outstanding].
  now rewrite (outstanding_no_reclaim _ _ (signal_events_no_reclaim _ _)).
Qed.

(** X11: on a token that is already cancelled, with the verification
    switched on, [do_run_task] makes no call at all, schedules no
    verification and starts no task, and gives the worker-shutdown status. *)
Theorem cancelled_token_skips_task (tw : task_world) (t : task_defn) (s : state) :
  verify_chain_of_trust_enabled (config (context s)) = true ->
  is_cancelled (self s) = true ->
  do_run_task tw t s =
  Run (Returned (worst_level 0 (STATUSES "worker-shutdown"%string))) s [].
Proof.
  intros Hv Hc. rewrite do_run_task_run. cbn zeta.
  rewrite verify_step_run, Hv, cancellable_verify_run, Hc. reflexivity.
Qed.

End StageProperties.

(** * The entry point *)

Section EntryPoint.

Import Main.
Local Open Scope main_scope.

Variable worst_level : Z -> Z -> Z.
Variable STATUSES : string -> Z.

Local Abbreviation run_tasks := (Worker.run_tasks worst_level STATUSES).
Local Abbreviation invoke := (Worker.invoke worst_level STATUSES).
Local Abbreviation async_main := (Main.async_main worst_level STATUSES).
Local Abbreviation main_loop := (Main.main_loop worst_level STATUSES).

Lemma gpg_home_swap_run (iw : iteration_world) (p : process) :
  gpg_home_swap iw p =
  if w_tmp_gpg_home_exists iw && is_ready (w_lockfile_state iw)
  then MRun (swap_outcome iw) p (swap_events iw)
  else MRun (Returned tt) p [].
Proof.
  unfold gpg_home_swap, swap_outcome, swap_events. cbn zeta.
  destruct (w_tmp_gpg_home_exists iw && is_ready (w_lockfile_state iw)); [|reflexivity].
  unfold try_finally, mbind, memit, mlift.
  destruct (w_rm iw) as [[]|e1], (w_rename iw) as [[]|e2],
    (w_rm_lockfile iw) as [[]|e3]; reflexivity.
Qed.

Lemma async_main_run (iw : iteration_world) (i creds : nat) (p : process) :
  async_main iw i creds p =
  let p0 := set_credentials (Some creds) (set_session (Some i) p) in
  let swap := gpg_home_swap iw p0 in
  match mvalue swap with
  | Raised e => closing iw i p0 (Raised e) (core p) (mevents swap)
  | Returned _ =>
      let r := run_tasks (w_run_tasks iw) (core p) in
      closing iw i p0
        (match value r with Returned _ => Returned tt | Raised e => Raised e end)
        (final r) (mevents swap ++ map InRunTasks (events r))
  end.
Proof.
  unfold Main.async_main, async_with_ClientSession, closing, try_finally, mbind, inner.
  cbn [memit mmodify mret mvalue mfinal mevents].
  rewrite gpg_home_swap_run. cbn zeta.
  destruct (w_tmp_gpg_home_exists iw && is_ready (w_lockfile_state iw));
    cbn [mvalue mfinal mevents core set_credentials set_session];
    [destruct (swap_outcome iw) as [[]|e]|];
    cbn [mvalue mfinal mevents core set_credentials set_session];
    try (destruct (run_tasks (w_run_tasks iw) (core p)) as [[st|e1] s1 ev1];
         cbn [value final events mvalue mfinal mevents core set_core]);
    rewrite await_run;
    destruct (result (w_session_close iw)) as [[]|e'];
    cbn [app set_core core session credentials]; rewrite ?app_nil_r; reflexivity.
Qed.

Lemma run_tasks_claim_scheduled (w : world) (s : state) :
  exists rest, events (run_tasks w s) = Scheduled claim_work :: rest.
Proof.
  rewrite run_tasks_run. cbn zeta.
  set (s1 := set_running_tasks (Some (next_ref s)) (new_RunTasks s)).
  assert (H : exists rest, events (invoke w s1) = Scheduled claim_work :: rest).
  { rewrite invoke_run. cbn zeta. rewrite run_cancellable_run.
    change (is_cancelled (self s1)) with false. cbn zeta.
    destruct (if cancelled_during (w_claim_work w) s1 && honours_cancel (w_claim_work w)
              then Raised CancelledError else result (w_claim_work w)) as [tasks|e];
      cbn [value final events]; [|eexists; reflexivity].
    destruct (no_work tasks).
    - destruct (value (_run_cancellable _ (w_sleep w) _)); eexists; reflexivity.
    - destruct tasks; eexists; reflexivity. }
  destruct H as (rest & H).
  destruct (value (invoke w s1)); cbn [events]; rewrite H; eexists; reflexivity.
Qed.

Lemma invoke_done_after_sigterm (w : world) (s : state) :
  is_cancelled (self s) = false ->
  signals (w_claim_work w) <> O ->
  done (final (invoke w s)) = true.
Proof.
  intros Hc Hn.
  assert (H0 : done (final (_run_cancellable claim_work (w_claim_work w) s)) = true).
  { rewrite run_cancellable_run, Hc. cbn zeta.
    destruct (signals (w_claim_work w)) as [|n]; [congruence|].
    destruct (if cancelled_during (w_claim_work w) s && honours_cancel (w_claim_work w)
              then Raised CancelledError else result (w_claim_work w));
      cbn; destruct (reaches _); reflexivity. }
  rewrite invoke_run. cbn zeta.
  destruct (value (_run_cancellable claim_work (w_claim_work w) s)) as [tasks|e];
    [|exact H0].
  destruct (no_work tasks).
  - assert (H1 : shutdown_order
                   (final (_run_cancellable claim_work (w_claim_work w) s))
                   (final (_run_cancellable
                             (asyncio_sleep (poll_interval (config (context
                                (final (_run_cancellable claim_work (w_claim_work w) s))))))
                             (w_sleep w)
                             (final (_run_cancellable claim_work (w_claim_work w) s))))).
    { apply (keeps_run_cancellable shutdown_order any_number shutdown_order_refl
               shutdown_order_trans); [intros f s'; split; cbn; auto| |exact I].
      intros n s' _; apply shutdown_order_signals. }
    destruct (value (_run_cancellable _ (w_sleep w) _)); cbn [final];
      exact (proj1 H1 H0).
  - destruct tasks as [d|]; [|exact H0]. cbn [final].
    refine (proj1 (keeps_for_tasks shutdown_order any_number shutdown_order_refl
                     shutdown_order_trans _ _ _ _ worst_level STATUSES w (get_tasks d)
                     _ 0%nat None _) H0).
    + intros f s'; split; cbn; auto.
    + intros p s'; split; cbn; auto.
    + intros t s'; split; cbn; auto.
    + intros n s' _; apply shutdown_order_signals.
    + intros i; repeat split.
Qed.

Lemma run_tasks_done_after_sigterm (w : world) (s : state) :
  signals (w_claim_work w) <> O ->
  done (final (run_tasks w s)) = true.
Proof.
  intros Hn. rewrite run_tasks_run. cbn zeta.
  pose proof (invoke_done_after_sigterm w
                (set_running_tasks (Some (next_ref s)) (new_RunTasks s)) eq_refl Hn) as H.
  destruct (value (invoke w _)); exact H.
Qed.

Lemma run_tasks_done_unchanged (w : world) (s : state) :
  calm_world no_signal w ->
  done (final (run_tasks w s)) = done s.
Proof.
  intros Hc. rewrite run_tasks_run. cbn zeta.
  destruct (untouched_invoke worst_level STATUSES w
              (set_running_tasks (Some (next_ref s)) (new_RunTasks s)) Hc) as (H & _).
  destruct (value (invoke w _)); exact H.
Qed.

Lemma done_after_signals (n : nat) (s : state) :
  done s = true -> done (after_signals n s) = true.
Proof. exact (proj1 (shutdown_order_signals n s)). Qed.

Lemma signal_events_not_scheduled (c : cancellable) (n : nat) (s : state) :
  ~ In (Scheduled c) (signal_events n s).
Proof.
  induction n as [|n IH]; [intros []|].
  cbn [signal_events]. intros Hy. apply in_app_or in Hy. destruct Hy as [Hy|Hy].
  - destruct (reaches s); [|destruct Hy]. unfold cancel_events in Hy.
    destruct (future (self s)), (task_process (self s));
      cbn in Hy; repeat (destruct Hy as [Hy|Hy]; [discriminate|]); exact Hy.
  - exact (IH Hy).
Qed.

Lemma not_in_map_InRunTasks (e : main_event) (l : list event) :
  (forall x, e <> InRunTasks x) -> ~ In e (map InRunTasks l).
Proof.
  intros He Hin. apply in_map_iff in Hin. destruct Hin as (x & Hx & _).
  exact (He x (eq_sym Hx)).
Qed.

(** X12: when the new gpg home exists and the lockfile says "ready" but
    the old home cannot be removed or the new one cannot be renamed, the
    lockfile is removed all the same and the session is closed; [run_tasks]
    is not started, and [async_main] ends with an exception.  When the
    removal fails, the renaming is not tried. *)
Theorem failed_swap_removes_lockfile (iw : iteration_world) (i creds : nat)
    (p : process) (e : exn) :
  w_tmp_gpg_home_exists iw = true ->
  is_ready (w_lockfile_state iw) = true ->
  w_rm iw = Raised e \/ (w_rm iw = Returned tt /\ w_rename iw = Raised e) ->
  In RmLockfile (mevents (async_main iw i creds p)) /\
  In (SessionClosed i) (mevents (async_main iw i creds p)) /\
  ~ In (InRunTasks (Scheduled claim_work)) (mevents (async_main iw i creds p)) /\
  (exists e', mvalue (async_main iw i creds p) = Raised e') /\
  (w_rm iw = Raised e -> ~ In RenameTmpGpgHome (mevents (async_main iw i creds p))).
Proof.
  intros H1 H2 Hf. rewrite async_main_run. cbn zeta.
  rewrite gpg_home_swap_run, H1, H2. cbn [andb mvalue mevents].
  assert (Hout : exists e', swap_outcome iw = Raised e').
  { unfold swap_outcome.
    destruct (w_rm_lockfile iw) as [[]|e3]; [|eexists; reflexivity].
    destruct Hf as [->|(-> & ->)]; eexists; reflexivity. }
  destruct Hout as (e' & ->). unfold closing. cbn [mvalue mevents].
  split; [|split; [|split; [|split]]].
  - right. apply in_or_app; left. unfold swap_events.
    destruct (w_rm iw); cbn; auto.
  - right. apply in_or_app; right. left; reflexivity.
  - intros [Hin|Hin]; [discriminate|].
    apply in_app_or in Hin. destruct Hin as [Hin|[Hin|Hin]].
    + unfold swap_events in Hin. destruct (w_rm iw); cbn in Hin;
        repeat (destruct Hin as [Hin|Hin]; [discriminate|]); exact Hin.
    + discriminate.
    + apply in_map_iff in Hin. destruct Hin as (y & Hy0 & Hy).
      injection Hy0 as ->.
      exact (signal_events_not_scheduled _ _ _ Hy).
  - destruct (result (w_session_close iw)); eexists; reflexivity.
  - intros Hrm [Hin|Hin]; [discriminate|].
    apply in_app_or in Hin. destruct Hin as [Hin|[Hin|Hin]].
    + unfold swap_events in Hin. rewrite Hrm in Hin. cbn in Hin.
      repeat (destruct Hin as [Hin|Hin]; [discriminate|]); exact Hin.
    + discriminate.
    + revert Hin. apply not_in_map_InRunTasks. discriminate.
Qed.

(** X13: unless the new gpg home exists and the lockfile says "ready",
    [async_main] removes nothing and renames nothing, and goes on to
    [run_tasks]. *)
Theorem no_swap_unless_ready (iw : iteration_world) (i creds : nat) (p : process) :
  w_tmp_gpg_home_exists iw && is_ready (w_lockfile_state iw) = false ->
  Forall (fun e => is_swap_event e = false) (mevents (async_main iw i creds p)) /\
  In (InRunTasks (Scheduled claim_work)) (mevents (async_main iw i creds p)).
Proof.
  intros Hc. rewrite async_main_run. cbn zeta.
  rewrite gpg_home_swap_run, Hc. cbn [mvalue mevents app]. unfold closing.
  cbn [mevents]. split.
  - constructor; [reflexivity|]. apply Forall_app; split.
    + apply Forall_forall. intros x Hx. apply in_map_iff in Hx.
      destruct Hx as (y & <- & _). reflexivity.
    + constructor; [reflexivity|]. apply Forall_forall. intros x Hx.
      apply in_map_iff in Hx. destruct Hx as (y & <- & _). reflexivity.
  - destruct (run_tasks_claim_scheduled (w_run_tasks iw) (core p)) as (rest & ->).
    right. left. reflexivity.
Qed.

(** X14: however [async_main] ends, by its end or by an exception of the
    swap or of [run_tasks], the session it opened is closed, after everything
    else but the SIGTERM handled during the close; [context.session] and
    [context.credentials] keep what was set. *)
Theorem session_closed_on_every_path (iw : iteration_world) (i creds : nat)
    (p : process) :
  (exists block handled,
     mevents (async_main iw i creds p) =
       SessionOpened i :: block ++ SessionClosed i :: map InRunTasks handled /\
     Forall token_event handled /\
     ~ In (SessionClosed i) block) /\
  session (mfinal (async_main iw i creds p)) = Some i /\
  credentials (mfinal (async_main iw i creds p)) = Some creds.
Proof.
  rewrite async_main_run. cbn zeta.
  rewrite gpg_home_swap_run.
  assert (Hswap : ~ In (SessionClosed i) (swap_events iw)).
  { unfold swap_events. destruct (w_rm iw); cbn; intuition discriminate. }
  assert (Hmap : forall l, ~ In (SessionClosed i) (map InRunTasks l)).
  { intros l. apply not_in_map_InRunTasks. discriminate. }
  assert (Hblock : forall X s0,
             ~ In (SessionClosed i) X ->
             exists block handled,
               SessionOpened i :: X ++ SessionClosed i ::
                 map InRunTasks (signal_events (signals (w_session_close iw)) s0) =
               SessionOpened i :: block ++ SessionClosed i :: map InRunTasks handled /\
               Forall token_event handled /\
               ~ In (SessionClosed i) block).
  { intros X s0 HX. exists X, (signal_events (signals (w_session_close iw)) s0).
    split; [reflexivity|]. split; [apply signal_events_token|exact HX]. }
  destruct (w_tmp_gpg_home_exists iw && is_ready (w_lockfile_state iw));
    cbn [mvalue mevents];
    [destruct (swap_outcome iw) as [[]|e]|];
    unfold closing;
    cbn [mevents mfinal set_core session credentials set_credentials set_session];
    (split; [apply Hblock|split; reflexivity]);
    rewrite ?in_app_iff; cbn [In]; try tauto;
    intros [H|H]; try (exact (Hswap H)); try (exact (Hmap _ H)); destruct H.
Qed.

Lemma async_main_done_kept (mw : main_world) (i creds : nat) (p : process) :
  done (core p) = true ->
  done (core (mfinal (async_main (w_iteration mw i) i creds p))) = true.
Proof.
  intros Hd. rewrite async_main_run. cbn zeta.
  rewrite gpg_home_swap_run.
  assert (Hr : done (final (run_tasks (w_run_tasks (w_iteration mw i)) (core p))) = true).
  { rewrite run_tasks_run. cbn zeta.
    pose proof (proj1 (shutdown_order_invoke worst_level STATUSES
                         (w_run_tasks (w_iteration mw i))
                         (set_running_tasks (Some (next_ref (core p)))
                            (new_RunTasks (core p)))) Hd) as H.
    destruct (value (invoke _ _)); exact H. }
  destruct (w_tmp_gpg_home_exists _ && is_ready _); cbn [mvalue];
    [destruct (swap_outcome _) as [[]|e]|];
    unfold closing; cbn [mfinal core set_core];
    apply done_after_signals; assumption.
Qed.

(** X15: SIGTERM handled during the claim of a call of [async_main], or
    while its session is closed: when the call returns, the loop of [main]
    makes no further call and stops. *)
Theorem sigterm_ends_main_loop (fuel : nat) (mw : main_world) (creds i : nat)
    (p : process) :
  done (core p) = false ->
  signals (w_claim_work (w_run_tasks (w_iteration mw i))) <> O \/
  signals (w_session_close (w_iteration mw i)) <> O ->
  mvalue (async_main (w_iteration mw i) i creds p) = Returned tt ->
  main_loop (S fuel) mw creds i p =
  MRun (Returned Stopped)
       (mfinal (async_main (w_iteration mw i) i creds p))
       (mevents (async_main (w_iteration mw i) i creds p)).
Proof.
  intros Hd Hs Hv.
  assert (Hdone : done (core (mfinal (async_main (w_iteration mw i) i creds p))) = true).
  { revert Hv. rewrite async_main_run. cbn zeta. rewrite gpg_home_swap_run.
    assert (Hclose : forall s0,
               (signals (w_claim_work (w_run_tasks (w_iteration mw i))) <> O ->
                done s0 = true) ->
               done (after_signals (signals (w_session_close (w_iteration mw i))) s0)
               = true).
    { intros s0 H0. destruct Hs as [Hs|Hs].
      - apply done_after_signals, H0, Hs.
      - destruct (signals (w_session_close (w_iteration mw i))); [congruence|].
        cbn. destruct (reaches s0); reflexivity. }
    destruct (w_tmp_gpg_home_exists _ && is_ready _); cbn [mvalue];
      [destruct (swap_outcome _) as [[]|e]|];
      unfold closing; cbn [mvalue mfinal core set_core]; intros Hv;
      try (destruct (result (w_session_close (w_iteration mw i))); discriminate Hv);
      apply Hclose; intros Hn; apply run_tasks_done_after_sigterm, Hn. }
  cbn [Main.main_loop]. rewrite Hd. unfold mbind.
  destruct (async_main (w_iteration mw i) i creds p) as [[[]|e] p1 ev1];
    [|discriminate Hv].
  cbn [mfinal mevents] in *.
  destruct fuel; cbn [Main.main_loop]; rewrite Hdone, app_nil_r; reflexivity.
Qed.

Lemma async_main_done_unchanged (iw : iteration_world) (i creds : nat) (p : process) :
  quiet_iteration iw ->
  done (core (mfinal (async_main iw i creds p))) = done (core p).
Proof.
  intros (Hq & Hn). rewrite async_main_run. cbn zeta. rewrite gpg_home_swap_run.
  destruct (w_tmp_gpg_home_exists _ && is_ready _); cbn [mvalue];
    [destruct (swap_outcome _) as [[]|e]|];
    unfold closing; cbn [mfinal core set_core]; rewrite Hn; cbn [after_signals];
    try reflexivity; apply run_tasks_done_unchanged, Hq.
Qed.

(** X16: [main] does not stop by itself: as long as no SIGTERM is
    handled, the loop is not left, however many times [async_main] returns;
    the only other way out is an exception. *)
Theorem main_never_stops_unasked (mw : main_world) (creds : nat) :
  (forall i, quiet_iteration (w_iteration mw i)) ->
  forall (fuel : nat) (p : process),
    mvalue (Main.main worst_level STATUSES fuel mw creds p) <> Returned Stopped.
Proof.
  intros Hq.
  assert (Hloop : forall fuel i p, done (core p) = false ->
            mvalue (main_loop fuel mw creds i p) <> Returned Stopped).
  { induction fuel as [|fuel IH]; intros i p Hd; cbn [Main.main_loop]; rewrite Hd.
    - discriminate.
    - unfold mbind.
      pose proof (async_main_done_unchanged (w_iteration mw i) i creds p (Hq i)) as Hu.
      destruct (async_main (w_iteration mw i) i creds p) as [[[]|e] p1 ev1];
        [|discriminate].
      cbn [mfinal] in Hu. rewrite Hd in Hu.
      specialize (IH (S i) p1 Hu).
      destruct (main_loop fuel mw creds (S i) p1) as [v p2 ev2]. exact IH. }
  intros fuel p. unfold Main.main, mbind, memit, mlift, mmodify.
  destruct (w_cleanup_at_start mw) as [[]|e]; [|discriminate].
  specialize (Hloop fuel 0%nat (set_core (set_done false (core p)) p) eq_refl).
  destruct (main_loop fuel mw creds 0 _) as [v p2 ev2]. exact Hloop.
Qed.

End EntryPoint.

(** * Examples, continued *)

Lemma adoption_meets_cancellation_witness :
  stop_requests 42%nat
    (events ((cancel;;; to_cancellable_process 42%nat) (registered true))) = 1%nat /\
  stop_requests 42%nat
    (events ((to_cancellable_process 42%nat;;; cancel) (registered true))) = 1%nat.
Proof.
  destruct (adoption_meets_cancellation 42%nat (registered true)) as (H1 & H2 & _).
  - reflexivity.
  - vm_compute. discriminate.
  - split; [exact H1 | exact H2].
Defined.

Lemma run_cancellable_failure_keeps_future_witness :
  future (self (final (_run_cancellable claim_work
                         (undisturbed (@Raised claim_response (Unexpected "boom"%string)))
                         (registered true)))) = Some claim_work.
Proof.
  apply (run_cancellable_failure_keeps_future claim_work
           (undisturbed (@Raised claim_response (Unexpected "boom"%string)))
           (registered true) (Unexpected "boom"%string)); reflexivity.
Defined.

Lemma sigterm_during_upload_stops_registered_process_witness :
  In (WorkerShutdownStop 42%nat)
     (events (do_upload numeric_worst_level example_STATUSES
                (with_upload (interrupted 1 (Returned tt)) task_succeeds) 7%nat
                process_registered)).
Proof.
  apply (sigterm_during_upload_stops_registered_process numeric_worst_level
           example_STATUSES (with_upload (interrupted 1 (Returned tt)) task_succeeds)
           7%nat process_registered 42%nat).
  - reflexivity.
  - reflexivity.
  - vm_compute. lia.
Defined.

Lemma run_tasks_cancelled_implies_done_witness :
  done (final (run_tasks numeric_worst_level example_STATUSES sigterm_during_claim
                 (idle true))) = true.
Proof.
  apply (run_tasks_cancelled_implies_done numeric_worst_level example_STATUSES
           sigterm_during_claim (idle true)).
  reflexivity.
Defined.

Lemma invoke_without_work_witness :
  Forall token_event
    (events (invoke numeric_worst_level example_STATUSES
               (claims [] (fun _ => task_succeeds)) (registered true))) /\
  In (Scheduled (asyncio_sleep 5))
    (events (invoke numeric_worst_level example_STATUSES
               (claims [] (fun _ => task_succeeds)) (registered true))).
Proof.
  destruct (invoke_without_work numeric_worst_level example_STATUSES
              (claims [] (fun _ => task_succeeds)) (registered true) (Some (Some []))
              eq_refl eq_refl eq_refl eq_refl) as (H1 & H2 & _).
  split; [exact H1 | exact H2].
Defined.

Lemma cancelled_token_still_starts_task_witness :
  In (RunTask 7%nat)
    (events (do_run_task numeric_worst_level example_STATUSES task_succeeds 7%nat
               (set_is_cancelled true (registered false)))) /\
  In (WorkerShutdownStop 42%nat)
    (events (do_run_task numeric_worst_level example_STATUSES task_succeeds 7%nat
               (set_is_cancelled true (registered false)))).
Proof.
  apply (cancelled_token_still_starts_task numeric_worst_level example_STATUSES
           task_succeeds 7%nat (set_is_cancelled true (registered false)) 42%nat);
    reflexivity.
Defined.

Lemma do_run_task_raises_only_unrecognised_witness :
  as_ScriptWorkerException (Unexpected "boom"%string) = None.
Proof.
  apply (do_run_task_raises_only_unrecognised numeric_worst_level example_STATUSES
           (w_task unexpected_failure 0%nat) 7%nat (registered true)
           (Unexpected "boom"%string)).
  reflexivity.
Defined.

Lemma do_upload_raises_only_unrecognised_witness :
  is_ClientError (Unexpected "disk full"%string) = false.
Proof.
  apply (do_upload_raises_only_unrecognised numeric_worst_level example_STATUSES
           (with_upload (undisturbed (Raised (Unexpected "disk full"%string)))
              task_succeeds)
           7%nat (registered true) (Unexpected "disk full"%string)).
  reflexivity.
Defined.

Lemma renewal_left_on_escaping_exception_witness :
  outstanding []
    (events (run_one numeric_worst_level example_STATUSES
               (w_task unexpected_failure 0%nat) 0%nat 7%nat (registered true)))
  = [0%nat].
Proof.
  apply (renewal_left_on_escaping_exception numeric_worst_level example_STATUSES
           (w_task unexpected_failure 0%nat) 0%nat 7%nat (registered true)
           (Unexpected "boom"%string)); reflexivity.
Defined.

Lemma cancelled_token_skips_task_witness :
  do_run_task numeric_worst_level example_STATUSES task_succeeds 7%nat
    (set_is_cancelled true (registered true))
  = Run (Returned 8) (set_is_cancelled true (registered true)) [].
Proof.
  apply (cancelled_token_skips_task numeric_worst_level example_STATUSES
           task_succeeds 7%nat (set_is_cancelled true (registered true)));
    reflexivity.
Defined.

Lemma failed_swap_removes_lockfile_witness :
  In Main.RmLockfile
    (Main.mevents (Main.async_main numeric_worst_level example_STATUSES
                     Main.swap_fails 0%nat 0%nat (Main.start true))) /\
  In (Main.SessionClosed 0%nat)
    (Main.mevents (Main.async_main numeric_worst_level example_STATUSES
                     Main.swap_fails 0%nat 0%nat (Main.start true))).
Proof.
  destruct (failed_swap_removes_lockfile numeric_worst_level example_STATUSES
              Main.swap_fails 0%nat 0%nat (Main.start true)
              (Unexpected "EACCES"%string) eq_refl eq_refl (or_introl eq_refl))
    as (H1 & H2 & _).
  split; [exact H1 | exact H2].
Defined.

Lemma no_swap_unless_ready_witness :
  Forall (fun e => Main.is_swap_event e = false)
    (Main.mevents (Main.async_main numeric_worst_level example_STATUSES
                     Main.nothing_happens 0%nat 0%nat (Main.start true))).
Proof.
  apply (no_swap_unless_ready numeric_worst_level example_STATUSES
           Main.nothing_happens 0%nat 0%nat (Main.start true)).
  reflexivity.
Defined.

Lemma sigterm_ends_main_loop_witness :
  Main.mvalue
    (Main.main_loop numeric_worst_level example_STATUSES 3
       (Main.mkMainWorld (Returned tt) (fun _ => Main.swap_then_sigterm))
       0%nat 0%nat (Main.start true))
  = Returned Main.Stopped.
Proof.
  rewrite (sigterm_ends_main_loop numeric_worst_level example_STATUSES 2
             (Main.mkMainWorld (Returned tt) (fun _ => Main.swap_then_sigterm))
             0%nat 0%nat (Main.start true)).
  - reflexivity.
  - reflexivity.
  - left. vm_compute. lia.
  - reflexivity.
Defined.

Lemma main_never_stops_unasked_witness :
  Main.mvalue
    (Main.main numeric_worst_level example_STATUSES 5
       (Main.mkMainWorld (Returned tt) (fun _ => Main.nothing_happens))
       0%nat (Main.start true))
  <> Returned Main.Stopped.
Proof.
  apply (main_never_stops_unasked numeric_worst_level example_STATUSES
           (Main.mkMainWorld (Returned tt) (fun _ => Main.nothing_happens)) 0%nat).
  intro i. repeat split.
Defined.
